(** * GitHub User Finder: the fetch-and-render controller of [src/main.js]

    A shallow embedding of the script that looks a GitHub user up and
    renders the profile page, together with the properties its
    specification states about it.

    - JavaScript values that [response.json()] can produce are the
      inductive [JsVal]; objects are finite maps from property names.
    - Strings are byte strings holding UTF-8 text. A number is held as the
      text that the conversion of numbers to strings prints for it ([5],
      [-3], [0.5], [1e+21]), which tells the numbers apart and is all the
      script ever does with one; a text that no number prints stands for
      no value, and no property below depends on one.
    - Expressions that can only throw (property reads, conversions to
      string, template literals)
      live in the exception monad [Res]; statements that also touch the
      page, the console or the network live in [M], a state monad over
      [World] with exceptions.
    - The host's date formatting ([toLocaleDateString] under a fixed locale
      and time zone) and the remote service are parameters of the
      development.
    - One query is run to completion at a time: [await] is sequencing,
      and queries that overlap are not modelled. *)

From stdpp Require Import gmap strings list.
From Stdlib Require Import ZArith Ascii String Lia.

Set Warnings "-register-all".
Open Scope Z_scope.

(** ** Values *)

Inductive JsVal : Type :=
  | JUndefined
  | JNull
  | JBool (b : bool)
  | JNum (text : string)
  | JStr (s : string)
  | JArr (items : list JsVal)
  | JObj (fields : gmap string JsVal).

(** What the script can throw or be rejected with. *)
Inductive Exn : Type :=
  | UserNotFound   (* new Error("User not found"), thrown at main.js:45 *)
  | FetchRejected  (* the promise of fetch() rejects: no response at all *)
  | JsonRejected   (* the promise of response.json() rejects: not JSON *)
  | TypeError.     (* property read on null, call of something not callable,
                      conversion of an object that has no usable toString *)

(** ** Exceptions: the monad of expressions *)

Definition Res (A : Type) : Type := (Exn + A)%type.

Definition ret_r {A} (a : A) : Res A := inr a.
Definition throw_r {A} (e : Exn) : Res A := inl e.
Definition bind_r {A B} (c : Res A) (k : A -> Res B) : Res B :=
  match c with
  | inl e => inl e
  | inr a => k a
  end.

Declare Scope res_scope.
Delimit Scope res_scope with res.
Notation "x <~ c ;; k" := (bind_r c (fun x => k))
  (at level 100, c at next level, right associativity) : res_scope.

(** ** JavaScript primitives used by the script *)

(** ToBoolean. The numbers that are falsy are zero, of either sign,
    printed [0], and [NaN]. *)
Definition truthy (v : JsVal) : bool :=
  match v with
  | JUndefined | JNull => false
  | JBool b => b
  | JNum text => negb (String.eqb text "0" || String.eqb text "NaN")
  | JStr s => negb (String.eqb s EmptyString)
  | JArr _ | JObj _ => true
  end.

(** [a || b] *)
Definition js_or (a b : JsVal) : JsVal := if truthy a then a else b.

(** The conversions of the elements of an array, for its [join]: null
    and undefined elements count as empty. *)
Definition elementTexts (convert : JsVal -> Res string)
    : list JsVal -> Res (list string) :=
  fix go (l : list JsVal) : Res (list string) :=
    match l with
    | [] => ret_r []
    | x :: xs =>
        (s <~ match x with
              | JUndefined | JNull => ret_r EmptyString
              | _ => convert x
              end ;;
         ss <~ go xs ;;
         ret_r (s :: ss))%res
    end.

(** ToString, as applied by a template literal to an interpolated value.
    An object is converted by its [toString] method: the inherited one
    prints a fixed text, but an own property of that name, which in parsed
    JSON is never a function, leaves no usable method and the conversion
    throws. An array joins the conversions of its elements with commas. *)
Fixpoint toString (v : JsVal) : Res string :=
  match v with
  | JUndefined => ret_r "undefined"
  | JNull => ret_r "null"
  | JBool b => ret_r (if b then "true" else "false")
  | JNum text => ret_r text
  | JStr s => ret_r s
  | JArr items =>
      (texts <~ elementTexts toString items ;;
       ret_r (String.concat "," texts))%res
  | JObj fields =>
      match fields !! "toString" with
      | Some _ => throw_r TypeError
      | None => ret_r "[object Object]"
      end
  end.

(** ToPrimitive, as applied by [new Date(v)]: an array or an object has
    no primitive [valueOf], so its [toString] decides. *)
Definition toPrimitive (v : JsVal) : Res JsVal :=
  match v with
  | JArr _ | JObj _ => (s <~ toString v ;; ret_r (JStr s))%res
  | _ => ret_r v
  end.

(** [new Date(v).toLocaleDateString(locale, options)], where [format]
    tells what the host prints for the date made of [v]: making the date
    can throw, printing it cannot. *)
Definition localeDate (format : JsVal -> string) (v : JsVal) : Res string :=
  (_ <~ toPrimitive v ;; ret_r (format v))%res.

(** The value of [v.k] when [v] is not null: only own properties of objects
    matter for the names the script reads, every other value gives
    undefined. *)
Definition prop (v : JsVal) (k : string) : JsVal :=
  match v with
  | JObj m => default JUndefined (m !! k)
  | _ => JUndefined
  end.

Definition nullish (v : JsVal) : bool :=
  match v with
  | JUndefined | JNull => true
  | _ => false
  end.

(** [v.k] *)
Definition get (v : JsVal) (k : string) : Res JsVal :=
  if nullish v then throw_r TypeError else ret_r (prop v k).

Fixpoint mapM_r {A B} (f : A -> Res B) (l : list A) : Res (list B) :=
  match l with
  | [] => ret_r []
  | x :: xs => (y <~ f x ;; ys <~ mapM_r f xs ;; ret_r (y :: ys))%res
  end.

(** [v.map(f)]: reading [map] off null throws, and so does calling it on
    anything that is not an array. *)
Definition array_map {B} (v : JsVal) (f : JsVal -> Res B) : Res (list B) :=
  match v with
  | JArr l => mapM_r f l
  | _ => throw_r TypeError
  end.

(** [parts.join("")] *)
Definition join_empty (parts : list string) : string :=
  String.concat EmptyString parts.

(** ** Template literals *)

(** HTML is full of double quotes; the literal chunks below are written
    with a backquote wherever the source has a double quote (a template
    literal cannot hold a bare backquote), and [bq] puts the quotes back. *)
Definition dquote : ascii := ascii_of_nat 34.

Fixpoint bq (s : string) : string :=
  match s with
  | EmptyString => EmptyString
  | String c r => String (if Ascii.eqb c "`"%char then dquote else c) (bq r)
  end.

(** A template literal is a sequence of literal chunks and interpolated
    expressions, evaluated left to right and concatenated. *)
Definition lit (s : string) : Res string := ret_r (bq s).

Definition interp (e : Res JsVal) : Res string :=
  (v <~ e ;; toString v)%res.

Fixpoint template (parts : list (Res string)) : Res string :=
  match parts with
  | [] => ret_r EmptyString
  | p :: ps => (s <~ p ;; r <~ template ps ;; ret_r (s +:+ r))%res
  end.

(** ** String.prototype.trim *)

(** WhiteSpace and LineTerminator code points of ECMAScript, in UTF-8:
    one byte (TAB, LF, VT, FF, CR, SP), two bytes (U+00A0), three bytes
    (U+1680, U+2000..U+200A, U+2028, U+2029, U+202F, U+205F, U+3000,
    U+FEFF). *)
Definition code (c : ascii) : N := N_of_ascii c.

Definition ws1 (a : ascii) : bool :=
  existsb (N.eqb (code a)) [9; 10; 11; 12; 13; 32]%N.

Definition ws2 (a b : ascii) : bool :=
  (code a =? 194)%N && (code b =? 160)%N.

Definition ws3 (a b c : ascii) : bool :=
  let '(x, y, z) := (code a, code b, code c) in
  ((x =? 225) && (y =? 154) && (z =? 128)
   || (x =? 226) && (y =? 128)
      && ((128 <=? z) && (z <=? 138) || (z =? 168) || (z =? 169) || (z =? 175))
   || (x =? 226) && (y =? 129) && (z =? 159)
   || (x =? 227) && (y =? 128) && (z =? 128)
   || (x =? 239) && (y =? 187) && (z =? 191))%N.

(** Drops every leading character recognised by the three predicates. *)
Fixpoint strip (w1 : ascii -> bool) (w2 : ascii -> ascii -> bool)
    (w3 : ascii -> ascii -> ascii -> bool) (s : string) : string :=
  match s with
  | EmptyString => s
  | String a r1 =>
      if w1 a then strip w1 w2 w3 r1
      else match r1 with
           | EmptyString => s
           | String b r2 =>
               if w2 a b then strip w1 w2 w3 r2
               else match r2 with
                    | EmptyString => s
                    | String c r3 =>
                        if w3 a b c then strip w1 w2 w3 r3 else s
                    end
           end
  end.

Definition trimStart (s : string) : string := strip ws1 ws2 ws3 s.

(** The trailing side reads the bytes backwards. *)
Definition trimEnd (s : string) : string :=
  String.rev
    (strip ws1 (fun b a => ws2 a b) (fun c b a => ws3 a b c) (String.rev s)).

Definition trim (s : string) : string := trimEnd (trimStart s).

(** A string of one-byte white space only. *)
Fixpoint blank (s : string) : bool :=
  match s with
  | EmptyString => true
  | String a r => ws1 a && blank r
  end.

(** ** The page, the console and the network *)

(** A response of the remote service: its status and, when the body is
    JSON, the value [response.json()] resolves to. *)
Record Response : Type := mkResponse {
  status : Z;
  body : option JsVal
}.

(** [response.ok]: the status is in the range 200-299. *)
Definition ok (r : Response) : bool :=
  (200 <=? status r)%Z && (status r <=? 299)%Z.

Inductive LogEntry : Type :=
  | LogError (e : Exn)    (* console.error(error) *)
  | LogValue (v : JsVal). (* console.log(value) *)

(** Everything the script can observe or change: the requests issued so
    far (oldest first), the console, the content of [#profile-container]
    and whether the submit event had its default action prevented. *)
Record World : Type := mkWorld {
  requests : list string;
  console : list LogEntry;
  innerHTML : string;
  defaultPrevented : bool
}.

Definition issue (url : string) (w : World) : World :=
  mkWorld (requests w ++ [url]) (console w) (innerHTML w)
    (defaultPrevented w).

Definition log (entry : LogEntry) (w : World) : World :=
  mkWorld (requests w) (console w ++ [entry]) (innerHTML w)
    (defaultPrevented w).

Definition display (html : string) (w : World) : World :=
  mkWorld (requests w) (console w) html (defaultPrevented w).

Definition prevent (w : World) : World :=
  mkWorld (requests w) (console w) (innerHTML w) true.

(** The remote service: what answers a request for a URL, given the
    requests issued before it; [None] when no response arrives. *)
Definition Transport : Type := list string -> string -> option Response.

(** ** Statements: state and exceptions *)

Definition M (A : Type) : Type := World -> Res A * World.

Definition ret {A} (a : A) : M A := fun w => (inr a, w).
Definition throw {A} (e : Exn) : M A := fun w => (inl e, w).
Definition bind {A B} (c : M A) (k : A -> M B) : M B :=
  fun w =>
    match c w with
    | (inl e, w') => (inl e, w')
    | (inr a, w') => k a w'
    end.

(** [try { c } catch (error) { handler }] *)
Definition try_catch {A} (c : M A) (handler : Exn -> M A) : M A :=
  fun w =>
    match c w with
    | (inl e, w') => handler e w'
    | (inr a, w') => (inr a, w')
    end.

(** An expression evaluated inside a statement. *)
Definition eval {A} (c : Res A) : M A := fun w => (c, w).

Declare Scope js_scope.
Delimit Scope js_scope with js.
Notation "x <- c ;; k" := (bind c (fun x => k))
  (at level 100, c at next level, right associativity) : js_scope.
Notation "c ;; k" := (bind c (fun _ => k))
  (at level 100, right associativity) : js_scope.

(** [fetch(url)]: the request is issued, and the promise resolves to the
    response or rejects. *)
Definition fetch (transport : Transport) (url : string) : M Response :=
  fun w =>
    match transport (requests w) url with
    | Some r => (inr r, issue url w)
    | None => (inl FetchRejected, issue url w)
    end.

(** [response.json()] *)
Definition json (r : Response) : M JsVal :=
  match body r with
  | Some v => ret v
  | None => throw JsonRejected
  end.

Definition console_error (e : Exn) : M unit :=
  fun w => (inr tt, log (LogError e) w).

Definition console_log (v : JsVal) : M unit :=
  fun w => (inr tt, log (LogValue v) w).

(** [mainContainer.innerHTML = html] *)
Definition set_innerHTML (html : string) : M unit :=
  fun w => (inr tt, display html w).

(** [event.preventDefault()] *)
Definition preventDefault : M unit :=
  fun w => (inr tt, prevent w).

(** ** An earlier draft of the script

    The repository also holds a first version of the same module, with the
    listener and the lookup only: no trimming, no guard, no [try], no
    rendering. Nothing catches what its lookup throws. *)
Module Draft.

Definition getUserProfile (transport : Transport) (username : string)
    : M unit :=
  (console_log (JStr username) ;;
   let url := "https://api.github.com/users/" +:+ username in
   response <- fetch transport url ;;
   data <- json response ;;
   console_log data)%js.

Definition onSubmit (transport : Transport) (value : string) : M unit :=
  (preventDefault ;;
   getUserProfile transport value)%js.

End Draft.

(** ** Vocabulary of the specification *)

(** The failure kinds the specification names. The script has no such
    type: its failures are the exceptions of [Exn]. *)
Inductive FetchError : Type :=
  | NotFound
  | Network
  | MalformedResponse.

(** The kind of each exception the two requests can end with: absence of
    the resource, no response, a body that is not JSON. A [TypeError]
    comes from evaluating the renderer, not from a request. *)
Definition fetchErrorOf (e : Exn) : option FetchError :=
  match e with
  | UserNotFound => Some NotFound
  | FetchRejected => Some Network
  | JsonRejected => Some MalformedResponse
  | TypeError => None
  end.

(** The property [k] of [v] is missing or null. *)
Definition absent (v : JsVal) (k : string) : Prop :=
  nullish (prop v k) = true.

(** The values that a template literal can convert to a string: those
    holding no object with a [toString] entry of its own, at the top or
    as an element of an array, at any depth. *)
Fixpoint convertible (v : JsVal) : bool :=
  match v with
  | JArr items => forallb convertible items
  | JObj fields =>
      match fields !! "toString" with
      | Some _ => false
      | None => true
      end
  | _ => true
  end.

(** The properties that a card reads off its repository, and those that
    the page reads off the profile. *)
Definition repoFields : list string :=
  ["updated_at"; "html_url"; "name"; "visibility"; "description";
   "language"; "stargazers_count"; "forks_count"].

Definition userFields : list string :=
  ["created_at"; "html_url"; "avatar_url"; "login"; "name"; "bio";
   "location"; "public_repos"; "followers"; "following"].

(** [v] can be laid out by a template that reads [fields] off it: it is
    not null, and the value of each of these properties converts to a
    string. *)
Definition presentable (fields : list string) (v : JsVal) : bool :=
  negb (nullish v) && forallb (fun k => convertible (prop v k)) fields.

(** [s] occurs in [t]. *)
Definition occurs_in (s t : string) : Prop :=
  exists l r, t = l +:+ s +:+ r.

(** An interpolation evaluates to [text], and the rendered [page] holds
    it. *)
Definition shows (slot : Res string) (text page : string) : Prop :=
  slot = inr text /\ occurs_in text page.

(** The class of the coloured dot, which only the language indicator
    carries. *)
Definition indicatorClass : string := "bg-yellow-400".

(** [t.startsWith(s)] *)
Fixpoint starts_with (s t : string) : bool :=
  match s, t with
  | EmptyString, _ => true
  | String a s', String b t' =>
      if Ascii.eqb a b then starts_with s' t' else false
  | String _ _, EmptyString => false
  end.

(** [t.includes(s)] *)
Fixpoint includes (t s : string) : bool :=
  if starts_with s t then true
  else match t with
       | EmptyString => false
       | String _ t' => includes t' s
       end.

Fixpoint has_char (a : ascii) (s : string) : bool :=
  match s with
  | EmptyString => false
  | String b s' => Ascii.eqb a b || has_char a s'
  end.

Fixpoint last_char (a : ascii) (s : string) : ascii :=
  match s with
  | EmptyString => a
  | String b s' => last_char b s'
  end.

(** A chunk of text through which no occurrence of [m] can reach: it
    begins and ends with characters foreign to [m] and does not hold [m]. *)
Definition fences (m t : string) : bool :=
  match t with
  | EmptyString => false
  | String a t' =>
      negb (has_char a m) && negb (has_char (last_char a t') m)
      && negb (includes t m)
  end.

(** The panel shown by the [catch] block (main.js:60-71). *)
Definition errorPanel : string :=
  bq "
      <div class=`bg-[#161b22] border border-[#30363d] rounded-xl p-10 text-center shadow-lg max-w-lg mx-auto`>
        <div class=`inline-flex items-center justify-center w-16 h-16 rounded-full bg-[#30363d] text-[#8b949e] mb-6`>
          <svg xmlns=`http://www.w3.org/2000/svg` fill=`none` viewBox=`0 0 24 24` stroke-width=`1.5` stroke=`currentColor` class=`w-8 h-8`>
            <path stroke-linecap=`round` stroke-linejoin=`round` d=`M21 21l-5.197-5.197m0 0A7.5 7.5 0 105.196 5.196a7.5 7.5 0 0010.607 10.607z` />
          </svg>
        </div>
        <h3 class=`text-xl font-bold text-[#f0f6fc] mb-2`>User not found</h3>
        <p class=`text-[#8b949e] text-base`>
            The username you entered doesn't seem to exist on GitHub. <br>Please check the spelling and try again.
        </p>
      </div>".

(** ** Sample data

    Values for the concrete runs at the end: a host whose date formats
    print the timestamp text as it is, a blank page, a profile, two
    repositories and a few canned services. *)

Definition plainDate (v : JsVal) : string :=
  match v with
  | JStr s => s
  | _ => "Invalid Date"
  end.

Definition w0 : World := mkWorld [] [] EmptyString false.

Definition octocat : JsVal :=
  JObj (<["login" := JStr "octocat"]>
        (<["name" := JStr EmptyString]>
         (<["bio" := JNull]>
          (<["public_repos" := JNum "8"]> ∅)))).

Definition helloWorld : JsVal :=
  JObj (<["name" := JStr "hello-world"]>
        (<["language" := JStr "Go"]>
         (<["description" := JStr EmptyString]> ∅))).

Definition spoonKnife : JsVal :=
  JObj (<["name" := JStr "Spoon-Knife"]>
        (<["stargazers_count" := JNum "12"]> ∅)).

Definition sevenRepos : list JsVal := replicate 7 spoonKnife.

Definition found (v : JsVal) : Response := mkResponse 200 (Some v).
Definition notFound : Response := mkResponse 404 (Some (JObj ∅)).
Definition notJson : Response := mkResponse 200 None.

(** A service that answers the profile request of [octocat] with
    [profile] and any other request with [repos]. *)
Definition serve (profile repos : Response) : Transport :=
  fun _ url =>
    if String.eqb url "https://api.github.com/users/octocat"
    then Some profile
    else Some repos.

Section Controller.

(** What [new Date(v).toLocaleDateString(en-US, options)] prints with the
    long and the short month of main.js:84-88 and main.js:93-96, under the
    locale data and time zone of the host. *)
Variable longDate shortDate : JsVal -> string.

Variable transport : Transport.

(** ** The repository card (main.js:92-125) *)

(** [repo.description || fallback] (main.js:106) *)
Definition descriptionText (repo : JsVal) : Res string :=
  interp (description <~ get repo "description" ;;
          ret_r (js_or description (JStr "No description provided.")))%res.

(** The conditional language indicator (main.js:109): the markup when
    [repo.language] is truthy, the empty string otherwise. *)
Definition languageIndicator (repo : JsVal) : Res string :=
  (language <~ get repo "language" ;;
   if truthy language
   then template
          [ lit "<div class=`flex items-center gap-1.5`><span class=`w-3 h-3 rounded-full bg-yellow-400`></span>";
            interp (get repo "language");
            lit "</div>" ]
   else ret_r EmptyString)%res.

(** The callback given to [repos.map]. *)
Definition repoCard (repo : JsVal) : Res string :=
  (updated_at <~ get repo "updated_at" ;;
   updatedDate <~ localeDate shortDate updated_at ;;
   template
     [ lit "
      <a href=`";
       interp (get repo "html_url");
       lit "` target=`_blank` class=`bg-[#161b22] p-6 rounded-xl border border-[#30363d] hover:border-[#58a6ff] transition-all group flex flex-col h-full shadow-sm text-left`>
        
        <div class=`flex justify-between items-start mb-3`>
          <h3 class=`text-[#58a6ff] font-bold text-xl group-hover:underline truncate pr-2`>";
       interp (get repo "name");
       lit "</h3>
          <span class=`text-xs border border-[#30363d] text-[#8b949e] px-2.5 py-0.5 rounded-full font-medium whitespace-nowrap`>";
       interp (get repo "visibility");
       lit "</span>
        </div>
        
        <p class=`text-[#8b949e] text-base mb-6 line-clamp-2 flex-grow`>";
       descriptionText repo;
       lit "</p>
        
        <div class=`flex items-center gap-5 text-sm text-[#8b949e] mt-auto`>
          ";
       languageIndicator repo;
       lit "
          
          <div class=`flex items-center gap-1.5 hover:text-[#58a6ff]`>
            <svg aria-hidden=`true` height=`16` viewBox=`0 0 16 16` width=`16` class=`fill-current`><path d=`M8 .25a.75.75 0 0 1 .673.418l1.882 3.815 4.21.612a.75.75 0 0 1 .416 1.279l-3.046 2.97.719 4.192a.75.75 0 0 1-1.088.791L8 12.347l-3.766 1.98a.75.75 0 0 1-1.088-.79l.72-4.194L.818 6.374a.75.75 0 0 1 .416-1.28l4.21-.611L7.327.668A.75.75 0 0 1 8 .25Z`></path></svg>
            ";
       interp (get repo "stargazers_count");
       lit "
          </div>
          
          <div class=`flex items-center gap-1.5 hover:text-[#58a6ff]`>
            <svg aria-hidden=`true` height=`16` viewBox=`0 0 16 16` width=`16` class=`fill-current`><path d=`M5 5.372v.878c0 .414.336.75.75.75h4.5a.75.75 0 0 0 .75-.75v-.878a2.25 2.25 0 1 1 1.5 0v.878a2.25 2.25 0 0 1-2.25 2.25h-1.5v2.128a2.251 2.251 0 1 1-1.5 0V8.5h-1.5A2.25 2.25 0 0 1 3.5 6.25v-.878a2.25 2.25 0 1 1 1.5 0ZM5 3.25a.75.75 0 1 0-1.5 0 .75.75 0 0 0 1.5 0Zm6.75.75a.75.75 0 1 0 0-1.5.75.75 0 0 0 0 1.5Zm-3 8.75a.75.75 0 1 0-1.5 0 .75.75 0 0 0 1.5 0Z`></path></svg>
            ";
       interp (get repo "forks_count");
       lit "
          </div>
          
          <div class=`ml-auto whitespace-nowrap text-xs`>Updated on ";
       ret_r updatedDate;
       lit "</div>
        </div>
      </a>
    " ])%res.

(** ** The profile page (main.js:82-215) *)

(** [user.name || user.login] (main.js:155) *)
Definition nameText (user : JsVal) : Res string :=
  interp (name <~ get user "name" ;;
          if truthy name then ret_r name else get user "login")%res.

(** [user.bio || fallback] (main.js:163) *)
Definition bioText (user : JsVal) : Res string :=
  interp (bio <~ get user "bio" ;;
          ret_r (js_or bio (JStr "This user has no bio.")))%res.

(** [user.location || fallback] (main.js:187) *)
Definition locationText (user : JsVal) : Res string :=
  interp (location <~ get user "location" ;;
          ret_r (js_or location (JStr "Earth")))%res.

(** [repos.map(repo => card)] (main.js:91-125) *)
Definition repoCards (repos : JsVal) : Res (list string) :=
  array_map repos repoCard.

(** The string that [renderProfile] assigns to the container. *)
Definition profileHTML (user repos : JsVal) : Res string :=
  (created_at <~ get user "created_at" ;;
   joinedDate <~ localeDate longDate created_at ;;
   cards <~ repoCards repos ;;
   let reposHTML := join_empty cards in
   template
     [ lit "
    <div class=`w-full max-w-7xl mx-auto space-y-8`>
      
      <div class=`bg-[#161b22] rounded-xl overflow-hidden shadow-xl border border-[#30363d]`>
        
        <div class=`h-32 bg-[#161b22] relative`>
            <div class=`absolute top-4 right-4`>
                <a href=`";
       interp (get user "html_url");
       lit "` target=`_blank` class=`flex items-center gap-2 bg-black/30 hover:bg-black/50 text-white px-3 py-1.5 rounded-md text-xs font-semibold transition-all border border-white/20`>
                    View on GitHub
                    <svg xmlns=`http://www.w3.org/2000/svg` fill=`none` viewBox=`0 0 24 24` stroke-width=`2` stroke=`currentColor` class=`w-4 h-4`><path stroke-linecap=`round` stroke-linejoin=`round` d=`M13.5 6H5.25A2.25 2.25 0 003 8.25v10.5A2.25 2.25 0 005.25 21h10.5A2.25 2.25 0 0018 18.75V10.5m-10.5 6L21 3m0 0h-5.25M21 3v5.25` /></svg>
                </a>
            </div>
        </div>

        <div class=`px-6 pb-6 md:px-10 md:pb-10`>
          <div class=`flex flex-col md:flex-row gap-8 relative`>
              
              <div class=`-mt-12 flex-shrink-0`>
                  <img src=`";
       interp (get user "avatar_url");
       lit "` alt=`";
       interp (get user "login");
       lit "` class=`w-32 h-32 rounded-full border-[4px] border-[#161b22] bg-[#161b22] shadow-sm`>
              </div>
              
              <div class=`flex-1 mt-3 w-full text-left`>
                  
                  <div class=`flex flex-col md:flex-row justify-between items-start md:items-center mb-3`>
                      <div>
                          <h2 class=`text-4xl font-bold text-[#f0f6fc] tracking-tight`>";
       nameText user;
       lit "</h2>
                          <p class=`text-[#58a6ff] text-xl`>@";
       interp (get user "login");
       lit "</p>
                      </div>
                      <div class=`mt-2 md:mt-0 text-[#8b949e] text-sm bg-[#0d1117] px-3 py-1.5 rounded-full border border-[#30363d] shadow-sm`>
                          Joined on ";
       ret_r joinedDate;
       lit "
                      </div>
                  </div>
                  
                  <p class=`text-[#c9d1d9] italic leading-relaxed text-lg mb-8 max-w-4xl`>";
       bioText user;
       lit "</p>
                  
                  <div class=`grid grid-cols-2 md:grid-cols-4 gap-6`>
                      <div class=`bg-[#0d1117] p-5 rounded-lg flex flex-col items-center justify-center border border-[#30363d]`>
                          <div class=`mb-2 text-[#58a6ff]`><svg xmlns=`http://www.w3.org/2000/svg` fill=`none` viewBox=`0 0 24 24` stroke-width=`1.5` stroke=`currentColor` class=`w-7 h-7`><path stroke-linecap=`round` stroke-linejoin=`round` d=`M12 6.042A8.967 8.967 0 006 3.75c-1.052 0-2.062.18-3 .512v14.25A8.987 8.987 0 016 18c2.305 0 4.408.867 6 2.292m0-14.25a8.966 8.966 0 016-2.292c1.052 0 2.062.18 3 .512v14.25A8.987 8.987 0 0018 18a8.967 8.967 0 00-6 2.292m0-14.25v14.25` /></svg></div>
                          <span class=`text-2xl font-bold text-[#f0f6fc]`>";
       interp (get user "public_repos");
       lit "</span>
                          <span class=`text-xs uppercase tracking-wider text-[#8b949e] font-semibold mt-1`>Repos</span>
                      </div>

                      <div class=`bg-[#0d1117] p-5 rounded-lg flex flex-col items-center justify-center border border-[#30363d]`>
                          <div class=`mb-2 text-[#3fb950]`><svg xmlns=`http://www.w3.org/2000/svg` fill=`none` viewBox=`0 0 24 24` stroke-width=`1.5` stroke=`currentColor` class=`w-7 h-7`><path stroke-linecap=`round` stroke-linejoin=`round` d=`M15 19.128a9.38 9.38 0 002.625.372 9.337 9.337 0 004.121-.952 4.125 4.125 0 00-7.533-2.493M15 19.128v-.003c0-1.113-.285-2.16-.786-3.07M15 19.128v.106A12.318 12.318 0 018.624 21c-2.331 0-4.512-.645-6.374-1.766l-.001-.109a6.375 6.375 0 0111.964-3.07M12 6.375a3.375 3.375 0 11-6.75 0 3.375 3.375 0 016.75 0zm8.25 2.25a2.625 2.625 0 11-5.25 0 2.625 2.625 0 015.25 0z` /></svg></div>
                          <span class=`text-2xl font-bold text-[#f0f6fc]`>";
       interp (get user "followers");
       lit "</span>
                          <span class=`text-xs uppercase tracking-wider text-[#8b949e] font-semibold mt-1`>Followers</span>
                      </div>

                      <div class=`bg-[#0d1117] p-5 rounded-lg flex flex-col items-center justify-center border border-[#30363d]`>
                          <div class=`mb-2 text-[#a371f7]`><svg xmlns=`http://www.w3.org/2000/svg` fill=`none` viewBox=`0 0 24 24` stroke-width=`1.5` stroke=`currentColor` class=`w-7 h-7`><path stroke-linecap=`round` stroke-linejoin=`round` d=`M19 7.5v3m0 0v3m0-3h3m-3 0h-3m-2.25-4.125a3.375 3.375 0 11-6.75 0 3.375 3.375 0 016.75 0zM4 19.235v-.11a6.375 6.375 0 0112.75 0v.109A12.318 12.318 0 0110.374 21c-2.331 0-4.512-.645-6.374-1.766z` /></svg></div>
                          <span class=`text-2xl font-bold text-[#f0f6fc]`>";
       interp (get user "following");
       lit "</span>
                          <span class=`text-xs uppercase tracking-wider text-[#8b949e] font-semibold mt-1`>Following</span>
                      </div>

                      <div class=`bg-[#0d1117] p-5 rounded-lg flex flex-col items-center justify-center border border-[#30363d]`>
                          <div class=`mb-2 text-[#f78166]`><svg xmlns=`http://www.w3.org/2000/svg` fill=`none` viewBox=`0 0 24 24` stroke-width=`1.5` stroke=`currentColor` class=`w-7 h-7`><path stroke-linecap=`round` stroke-linejoin=`round` d=`M15 10.5a3 3 0 11-6 0 3 3 0 016 0z` />
                                  <path stroke-linecap=`round` stroke-linejoin=`round` d=`M19.5 10.5c0 7.142-7.5 11.25-7.5 11.25S4.5 17.642 4.5 10.5a7.5 7.5 0 0115 0z` /></svg></div>
                          <span class=`text-lg font-bold text-[#f0f6fc] truncate max-w-full px-1`>";
       locationText user;
       lit "</span>
                          <span class=`text-xs uppercase tracking-wider text-[#8b949e] font-semibold mt-1`>Location</span>
                      </div>
                  </div>
              </div>
          </div>
        </div>
      </div>

      <div>
          <h3 class=`text-2xl font-bold text-[#f0f6fc] mb-6 flex items-center gap-3`>
              <svg aria-hidden=`true` height=`24` viewBox=`0 0 16 16` width=`24` class=`fill-[#58a6ff]`><path d=`M2 2.5A2.5 2.5 0 0 1 4.5 0h8.75a.75.75 0 0 1 .75.75v12.5a.75.75 0 0 1-.75.75h-2.5a.75.75 0 0 1 0-1.5h1.75v-2h-8a1 1 0 0 0-.714 1.7.75.75 0 1 1-1.072 1.05A2.495 2.495 0 0 1 2 11.5Zm10.5-1H4.5a1 1 0 0 0-1 0.983L9 2.5Zm1.679 5.5H5.117l3.5 1.342ZM8.75 6.5l-4.75 1.825V2.5A1 1 0 0 1 4.5 1.5h8.25Z`></path></svg>
              Latest Repositories
          </h3>
          
          <div class=`grid grid-cols-1 md:grid-cols-2 gap-6 mb-10`>
              ";
       ret_r reposHTML;
       lit "
          </div>
          
          <div class=`flex justify-center pb-10`>
              <a href=`";
       interp (get user "html_url");
       lit "?tab=repositories` target=`_blank` class=`bg-[#238636] hover:bg-[#2ea043] text-white font-bold py-3 px-8 rounded-lg transition-colors shadow-lg text-base`>
                  View all repositories on GitHub
              </a>
          </div>
      </div>

    </div>
  " ])%res.

(** [renderProfile(user, repos)] *)
Definition renderProfile (user repos : JsVal) : M unit :=
  (html <- eval (profileHTML user repos) ;;
   set_innerHTML html)%js.

(** ** The controller (main.js:38-73) *)

Definition userUrl (username : string) : string :=
  "https://api.github.com/users/" +:+ username.

Definition reposUrl (username : string) : string :=
  "https://api.github.com/users/" +:+ username
  +:+ "/repos?sort=updated&per_page=6".

Definition getUserProfile (username : string) : M unit :=
  try_catch
    (userResponse <- fetch transport (userUrl username) ;;
     (if negb (ok userResponse) then throw UserNotFound else ret tt) ;;
     userData <- json userResponse ;;
     reposResponse <- fetch transport (reposUrl username) ;;
     reposData <- json reposResponse ;;
     renderProfile userData reposData)%js
    (fun error =>
       console_error error ;;
       set_innerHTML errorPanel)%js.

(** The submit listener (main.js:23-30), given the value of the text
    field. *)
Definition onSubmit (value : string) : M unit :=
  (preventDefault ;;
   let username := trim value in
   if truthy (JStr username) then getUserProfile username else ret tt)%js.

(** The two requests of [getUserProfile] on their own (main.js:41-53):
    what the specification calls the profile fetcher. *)
Definition fetchStage (username : string) : M (JsVal * JsVal) :=
  (userResponse <- fetch transport (userUrl username) ;;
   (if negb (ok userResponse) then throw UserNotFound else ret tt) ;;
   userData <- json userResponse ;;
   reposResponse <- fetch transport (reposUrl username) ;;
   reposData <- json reposResponse ;;
   ret (userData, reposData))%js.

(** The requests a run has added to the log. *)
Definition issued (w w' : World) (urls : list string) : Prop :=
  requests w' = requests w ++ urls.

(** The container holds the error panel or a complete profile page. *)
Definition settled (html : string) : Prop :=
  html = errorPanel
  \/ exists userData reposData, profileHTML userData reposData = inr html.

(** The texts a card takes from its repository, the language apart. *)
Definition interpolated (repo : JsVal) : list (Res string) :=
  [ toString (prop repo "html_url");
    toString (prop repo "name");
    toString (prop repo "visibility");
    toString (prop repo "description");
    toString (prop repo "stargazers_count");
    toString (prop repo "forks_count");
    localeDate shortDate (prop repo "updated_at") ].

(** * Properties *)

(** ** Strings *)

Lemma append_cons (a : ascii) (s t : string) :
  String a s +:+ t = String a (s +:+ t).
Proof. reflexivity. Qed.

Lemma append_empty_l (s : string) : EmptyString +:+ s = s.
Proof. reflexivity. Qed.

Lemma append_empty_r (s : string) : s +:+ EmptyString = s.
Proof.
  induction s as [|a s IH]; [done | by rewrite append_cons, IH].
Qed.

Lemma append_assoc (s t u : string) : (s +:+ t) +:+ u = s +:+ t +:+ u.
Proof.
  induction s as [|a s IH]; [done | by rewrite !append_cons, IH].
Qed.

Lemma length_append (s t : string) :
  String.length (s +:+ t) = (String.length s + String.length t)%nat.
Proof.
  induction s as [|a s IH]; [done | rewrite append_cons; cbn; by rewrite IH].
Qed.

Lemma append_eq_self (s t : string) : s = s +:+ t -> t = EmptyString.
Proof.
  intros H. apply (f_equal String.length) in H. rewrite length_append in H.
  destruct t; [done | cbn in H; lia].
Qed.

(** ** Running the controller *)

Lemma renderProfile_run (user repos : JsVal) (w : World) :
  renderProfile user repos w =
  match profileHTML user repos with
  | inl e => (inl e, w)
  | inr html => (inr tt, display html w)
  end.
Proof.
  unfold renderProfile, bind, eval, set_innerHTML.
  destruct (profileHTML user repos); reflexivity.
Qed.

(** The two requests, case by case. *)
Lemma fetchStage_run (username : string) (w : World) :
  fetchStage username w =
  let w1 := issue (userUrl username) w in
  let w2 := issue (reposUrl username) w1 in
  match transport (requests w) (userUrl username) with
  | None => (inl FetchRejected, w1)
  | Some r1 =>
      if ok r1 then
        match body r1 with
        | None => (inl JsonRejected, w1)
        | Some userData =>
            match transport (requests w1) (reposUrl username) with
            | None => (inl FetchRejected, w2)
            | Some r2 =>
                match body r2 with
                | None => (inl JsonRejected, w2)
                | Some reposData => (inr (userData, reposData), w2)
                end
            end
        end
      else (inl UserNotFound, w1)
  end.
Proof.
  unfold fetchStage, bind, fetch, json, throw, ret. cbn zeta.
  destruct (transport (requests w) (userUrl username)) as [r1|]; [|reflexivity].
  destruct (ok r1); cbn; [|reflexivity].
  destruct (body r1) as [userData|]; cbn; [|reflexivity].
  destruct (transport _ (reposUrl username)) as [r2|]; [|reflexivity].
  destruct (body r2); reflexivity.
Qed.

(** [getUserProfile] is the two requests, then the rendering, all inside
    the [try]. *)
Lemma getUserProfile_stages (username : string) (w : World) :
  getUserProfile username w =
  match fetchStage username w with
  | (inl e, w') => (inr tt, display errorPanel (log (LogError e) w'))
  | (inr (userData, reposData), w') =>
      match profileHTML userData reposData with
      | inl e => (inr tt, display errorPanel (log (LogError e) w'))
      | inr html => (inr tt, display html w')
      end
  end.
Proof.
  rewrite fetchStage_run.
  unfold getUserProfile, try_catch, bind, fetch, json, throw, ret,
    console_error, renderProfile, eval, set_innerHTML. cbn zeta.
  destruct (transport (requests w) (userUrl username)) as [r1|]; [|reflexivity].
  destruct (ok r1); cbn; [|reflexivity].
  destruct (body r1) as [userData|]; cbn; [|reflexivity].
  destruct (transport _ (reposUrl username)) as [r2|]; [|reflexivity].
  destruct (body r2) as [reposData|]; cbn; [|reflexivity].
  destruct (profileHTML userData reposData); reflexivity.
Qed.

Lemma issued_inj (w w' : World) (urls urls' : list string) :
  issued w w' urls -> issued w w' urls' -> urls = urls'.
Proof.
  unfold issued. intros H1 H2. rewrite H1 in H2.
  by apply app_inv_head in H2.
Qed.

Lemma fetchStage_not_found (username : string) (w : World) (r : Response) :
  transport (requests w) (userUrl username) = Some r ->
  ok r = false ->
  fetchStage username w = (inl UserNotFound, issue (userUrl username) w).
Proof.
  intros Hr Hok. rewrite fetchStage_run. cbn zeta. by rewrite Hr, Hok.
Qed.

(** Which requests a run issues: the profile request alone, or both when
    the profile response arrived, was [ok] and held JSON. *)
Lemma getUserProfile_issued (username : string) (w : World) :
  issued w (getUserProfile username w).2 [userUrl username]
  \/ issued w (getUserProfile username w).2
       [userUrl username; reposUrl username]
     /\ exists r userData,
          transport (requests w) (userUrl username) = Some r
          /\ ok r = true /\ body r = Some userData.
Proof.
  rewrite getUserProfile_stages, fetchStage_run. cbn zeta. unfold issued.
  destruct (transport (requests w) (userUrl username)) as [r1|] eqn:H1;
    [|left; reflexivity].
  destruct (ok r1) eqn:Hok; [|left; reflexivity].
  destruct (body r1) as [userData|] eqn:Hb; [|left; reflexivity].
  right. split; [|by exists r1, userData].
  destruct (transport _ (reposUrl username)) as [r2|];
    [destruct (body r2) as [reposData|];
       [destruct (profileHTML userData reposData)|]|];
    cbn; by rewrite <- app_assoc.
Qed.

Lemma status_404_not_ok (r : Response) : status r = 404%Z -> ok r = false.
Proof. unfold ok. intros ->. reflexivity. Qed.

(** C1. When the profile lookup answers with a status that is not [ok]
    (404 in particular), the fetch fails at once with the exception of
    kind [NotFound]: the profile request is the only one issued, the
    failure is logged and the error panel shown. In every run the
    repository request is issued only after the profile response has
    arrived, was [ok] and was parsed. *)
Theorem not_found_stops_the_query (username : string) (w : World) :
  (forall r,
     transport (requests w) (userUrl username) = Some r ->
     ok r = false ->
     (exists e,
        fetchStage username w = (inl e, issue (userUrl username) w)
        /\ fetchErrorOf e = Some NotFound)
     /\ getUserProfile username w =
        (inr tt,
         display errorPanel
           (log (LogError UserNotFound) (issue (userUrl username) w)))
     /\ issued w (getUserProfile username w).2 [userUrl username])
  /\ (forall urls,
        issued w (getUserProfile username w).2 urls ->
        In (reposUrl username) urls ->
        urls = [userUrl username; reposUrl username]
        /\ exists r userData,
             transport (requests w) (userUrl username) = Some r
             /\ ok r = true /\ body r = Some userData).
Proof.
  split.
  - intros r Hr Hok.
    pose proof (fetchStage_not_found username w r Hr Hok) as Hstage.
    split; [by exists UserNotFound|].
    rewrite getUserProfile_stages, Hstage. split; reflexivity.
  - intros urls Hurls Hin.
    destruct (getUserProfile_issued username w) as [H1|[H2 Hex]].
    + rewrite (issued_inj _ _ _ _ Hurls H1) in Hin.
      destruct Hin as [Heq|[]]. exfalso.
      unfold userUrl, reposUrl in Heq.
      apply String.app_inj, append_eq_self in Heq. discriminate Heq.
    + by rewrite (issued_inj _ _ _ _ Hurls H2).
Qed.

(** ** The submit listener *)

Lemma truthy_JStr (s : string) :
  truthy (JStr s) = negb (String.eqb s EmptyString).
Proof. reflexivity. Qed.

Lemma onSubmit_run (value : string) (w : World) :
  onSubmit value w =
  if String.eqb (trim value) EmptyString then (inr tt, prevent w)
  else getUserProfile (trim value) (prevent w).
Proof.
  unfold onSubmit, bind, preventDefault. cbn zeta. rewrite truthy_JStr.
  destruct (String.eqb (trim value) EmptyString); reflexivity.
Qed.

Lemma blank_trims_to_empty (s : string) :
  blank s = true -> trim s = EmptyString.
Proof.
  intros Hs. unfold trim.
  assert (Hstart : trimStart s = EmptyString).
  { unfold trimStart. induction s as [|a s IH]; [done|].
    cbn in Hs. apply andb_prop in Hs as [Ha Hs]. cbn. rewrite Ha. auto. }
  by rewrite Hstart.
Qed.

(** A query of white space only never reaches the network. *)
Lemma blank_query_issues_nothing (value : string) (w : World) :
  blank value = true ->
  onSubmit value w = (inr tt, prevent w).
Proof.
  intros Hb. by rewrite onSubmit_run, (blank_trims_to_empty _ Hb).
Qed.

(** C2. A query that is empty once trimmed issues no request and leaves
    the content of the container as it was. *)
Theorem blank_query_is_ignored (value : string) (w : World) :
  trim value = EmptyString ->
  onSubmit value w = (inr tt, prevent w)
  /\ requests (onSubmit value w).2 = requests w
  /\ innerHTML (onSubmit value w).2 = innerHTML w
  /\ console (onSubmit value w).2 = console w.
Proof.
  intros Hblank. rewrite onSubmit_run, Hblank. cbn. done.
Qed.

(** The guard is exactly the trimmed query: any other value starts a
    lookup of the trimmed name. *)
Lemma named_query_is_looked_up (value : string) (w : World) :
  trim value <> EmptyString ->
  onSubmit value w = getUserProfile (trim value) (prevent w).
Proof.
  intros Hname. rewrite onSubmit_run.
  destruct (String.eqb_spec (trim value) EmptyString); done.
Qed.

(** ** Failures of the two requests *)


Lemma getUserProfile_failure (username : string) (w : World) (e : Exn)
    (w' : World) :
  fetchStage username w = (inl e, w') ->
  getUserProfile username w =
  (inr tt, display errorPanel (log (LogError e) w')).
Proof. intros H. by rewrite getUserProfile_stages, H. Qed.

(** ** What a run leaves on the page *)

Lemma getUserProfile_settles (username : string) (w : World) :
  exists w',
    getUserProfile username w = (inr tt, w')
    /\ settled (innerHTML w')
    /\ exists urls, issued w w' (userUrl username :: urls).
Proof.
  rewrite getUserProfile_stages, fetchStage_run. cbn zeta. unfold issued.
  destruct (transport (requests w) (userUrl username)) as [r1|];
    [|eexists; split; [done|split; [by left|by exists []]]].
  destruct (ok r1);
    [|eexists; split; [done|split; [by left|by exists []]]].
  destruct (body r1) as [userData|];
    [|eexists; split; [done|split; [by left|by exists []]]].
  assert (Hreq : forall l : list string,
            (requests w ++ [userUrl username]) ++ l
            = requests w ++ userUrl username :: l)
    by (intros l; by rewrite <- app_assoc).
  destruct (transport _ (reposUrl username)) as [r2|];
    [|eexists; split; [done|split; [by left|eexists; cbn; apply Hreq]]].
  destruct (body r2) as [reposData|];
    [|eexists; split; [done|split; [by left|eexists; cbn; apply Hreq]]].
  destruct (profileHTML userData reposData) as [e|html] eqn:Hhtml;
    eexists; (split; [done|split; [|eexists; cbn; apply Hreq]]).
  - by left.
  - right. by exists userData, reposData.
Qed.

(** C4. Whatever fails, be it one of the requests or the rendering, the
    run ends normally with the one error panel in the container; the
    container never holds anything but that panel or a complete page; and
    a query submitted afterwards is processed like any other. *)
Theorem every_failure_shows_the_panel (username : string) (w : World) :
  exists w',
    getUserProfile username w = (inr tt, w')
    /\ (forall e w1,
          fetchStage username w = (inl e, w1) ->
          w' = display errorPanel (log (LogError e) w1))
    /\ (forall userData reposData w1 e,
          fetchStage username w = (inr (userData, reposData), w1) ->
          profileHTML userData reposData = inl e ->
          w' = display errorPanel (log (LogError e) w1))
    /\ settled (innerHTML w')
    /\ (forall value,
          exists w'',
            onSubmit value w' = (inr tt, w'')
            /\ (trim value <> EmptyString ->
                settled (innerHTML w'')
                /\ exists urls, issued w' w'' (userUrl (trim value) :: urls))).
Proof.
  destruct (getUserProfile_settles username w) as (w' & Hrun & Hset & _).
  exists w'. split; [done|].
  split.
  { intros e w1 Hf. rewrite (getUserProfile_failure _ _ _ _ Hf) in Hrun.
    congruence. }
  split.
  { intros userData reposData w1 e Hf Hr.
    rewrite getUserProfile_stages, Hf, Hr in Hrun. congruence. }
  split; [done|].
  intros value. rewrite onSubmit_run.
  destruct (String.eqb_spec (trim value) EmptyString) as [Hb|Hn].
  - by eexists.
  - destruct (getUserProfile_settles (trim value) (prevent w'))
      as (w'' & Hrun' & Hset' & urls & Hurls).
    exists w''. split; [done|]. intros _. split; [done|]. by exists urls.
Qed.

(** ** Expressions *)

Arguments bq : simpl never.

Lemma get_nonnull (v : JsVal) (k : string) :
  nullish v = false -> get v k = inr (prop v k).
Proof. unfold get. by intros ->. Qed.

Lemma get_inr (v x : JsVal) (k : string) :
  get v k = inr x -> nullish v = false /\ x = prop v k.
Proof. unfold get. destruct (nullish v); [done | by intros [= <-]]. Qed.

Lemma nullish_falsy (v : JsVal) : nullish v = true -> truthy v = false.
Proof. by destruct v. Qed.

Lemma missing_is_absent (fields : gmap string JsVal) (k : string) :
  fields !! k = None -> absent (JObj fields) k.
Proof. unfold absent, prop. by intros ->. Qed.

Lemma null_is_absent (fields : gmap string JsVal) (k : string) :
  fields !! k = Some JNull -> absent (JObj fields) k.
Proof. unfold absent, prop. by intros ->. Qed.

Lemma occurs_in_refl (s : string) : occurs_in s s.
Proof. exists EmptyString, EmptyString. by rewrite append_empty_r. Qed.

Lemma occurs_in_append_l (s t u : string) :
  occurs_in s t -> occurs_in s (t +:+ u).
Proof.
  intros (l & r & ->). exists l, (r +:+ u). by rewrite !append_assoc.
Qed.

Lemma occurs_in_append_r (s t u : string) :
  occurs_in s u -> occurs_in s (t +:+ u).
Proof.
  intros (l & r & ->). exists (t +:+ l), r. by rewrite !append_assoc.
Qed.

Lemma occurs_in_trans (s t u : string) :
  occurs_in s t -> occurs_in t u -> occurs_in s u.
Proof.
  intros Hst (l & r & ->).
  by apply occurs_in_append_r, occurs_in_append_l.
Qed.

Ltac in_parts := repeat (first [left; reflexivity | right]).

(** Every part of a template that evaluates shows up in the result. *)
Lemma template_In (parts : list (Res string)) (p : Res string)
    (doc : string) :
  In p parts -> template parts = inr doc ->
  exists s, p = inr s /\ occurs_in s doc.
Proof.
  revert doc. induction parts as [|q parts IH]; intros doc Hin; [done|].
  cbn. destruct q as [e|s]; [done|]. cbn.
  destruct (template parts) as [e|rest]; [done|]. cbn. intros [= <-].
  destruct Hin as [<-|Hin].
  - exists s. split; [done|]. apply occurs_in_append_l, occurs_in_refl.
  - destruct (IH rest Hin eq_refl) as (s' & -> & Hocc).
    exists s'. split; [done|]. by apply occurs_in_append_r.
Qed.

(** ** The interpolated texts *)

(** Induction on values, with the elements of an array at hand. *)
Lemma JsVal_elements_ind (P : JsVal -> Prop) :
  P JUndefined -> P JNull -> (forall b, P (JBool b)) ->
  (forall text, P (JNum text)) -> (forall s, P (JStr s)) ->
  (forall items, Forall P items -> P (JArr items)) ->
  (forall fields, P (JObj fields)) ->
  forall v, P v.
Proof.
  intros Hu Hn Hb Hnum Hs Harr Hobj. fix IH 1.
  intros [| |b|text|s|items|fields];
    [exact Hu | exact Hn | apply Hb | apply Hnum | apply Hs | | apply Hobj].
  apply Harr. induction items as [|x items IHitems]; constructor;
    [apply IH | exact IHitems].
Qed.

(** A conversion to string throws nothing but a [TypeError]. *)
Lemma toString_throws (v : JsVal) (e : Exn) :
  toString v = inl e -> e = TypeError.
Proof.
  revert e. induction v as [| | | | |items IH|fields]
    using JsVal_elements_ind; intros e; cbn; try done.
  - destruct (elementTexts toString items) as [e'|texts] eqn:He; [|done].
    cbn. intros [= <-]. revert e' He.
    induction IH as [|x items Hx _ IHitems]; intros e'; cbn; [done|].
    destruct (match x with
              | JUndefined | JNull => ret_r EmptyString
              | _ => toString x
              end) as [ex|s] eqn:Hsx; cbn.
    + intros [= <-]. destruct x; try done; by apply Hx.
    + destruct (elementTexts toString items) as [e''|ss]; cbn; [|done].
      intros [= <-]. by apply IHitems.
  - by destruct (fields !! "toString"); intros [= <-].
Qed.

Lemma elementTexts_converts (items : list JsVal) :
  Forall (fun v => convertible v = true <-> exists s, toString v = inr s)
    items ->
  forallb convertible items = true
  <-> exists texts, elementTexts toString items = inr texts.
Proof.
  induction 1 as [|x items Hx _ IH]; cbn; [split; [by eexists | done]|].
  rewrite andb_true_iff, Hx, IH. split.
  - intros [[s Hs] [texts ->]].
    replace (match x with
             | JUndefined | JNull => ret_r EmptyString
             | _ => toString x
             end) with (inr (B := string) (A := Exn)
                          (match x with
                           | JUndefined | JNull => EmptyString
                           | _ => s
                           end))
      by (destruct x; try done; by rewrite Hs).
    cbn. by eexists.
  - intros [texts Htexts].
    destruct (elementTexts toString items) as [e|ss];
      [by destruct (match x with JUndefined => _ | _ => _ end)|].
    split; [|by eexists].
    destruct x; try (by eexists);
      match type of Htexts with
      | context [toString ?v] => destruct (toString v); [done | by eexists]
      end.
Qed.

(** The convertible values are those whose conversion gives a string. *)
Lemma convertible_inr (v : JsVal) :
  convertible v = true <-> exists s, toString v = inr s.
Proof.
  induction v as [| | | | |items IH|fields] using JsVal_elements_ind;
    try (split; [by eexists | done]).
  - change (forallb convertible items = true
            <-> exists s,
                  (texts <~ elementTexts toString items ;;
                   ret_r (String.concat "," texts))%res = inr s).
    rewrite (elementTexts_converts _ IH). split.
    + intros [texts ->]. by eexists.
    + intros [s Hs].
      destruct (elementTexts toString items); [done | by eexists].
  - cbn. destruct (fields !! "toString"); split; try done.
    + by intros [s [=]].
    + by eexists.
Qed.

Lemma not_convertible (v : JsVal) :
  convertible v = false <-> toString v = inl TypeError.
Proof.
  destruct (convertible v) eqn:Hc.
  - apply convertible_inr in Hc as [s ->]. done.
  - split; [intros _|done]. destruct (toString v) as [e|s] eqn:Hv.
    + by rewrite (toString_throws _ _ Hv).
    + assert (convertible v = true) by (apply convertible_inr; by exists s).
      congruence.
Qed.

Lemma localeDate_run (format : JsVal -> string) (v : JsVal) :
  localeDate format v =
  if convertible v then inr (format v) else inl TypeError.
Proof.
  unfold localeDate, toPrimitive.
  destruct (convertible v) eqn:Hc.
  - apply convertible_inr in Hc as [s Hs]. destruct v; try done;
      by rewrite Hs.
  - apply not_convertible in Hc. destruct v; try done; by rewrite Hc.
Qed.

Lemma toString_falsy (v : JsVal) :
  truthy v = false -> exists s, toString v = inr s.
Proof. destruct v; try done; by eexists. Qed.

Lemma descriptionText_run (repo : JsVal) :
  nullish repo = false ->
  descriptionText repo =
  toString (js_or (prop repo "description")
              (JStr "No description provided.")).
Proof.
  intros Hn. unfold descriptionText, interp. by rewrite (get_nonnull _ _ Hn).
Qed.

Lemma bioText_run (user : JsVal) :
  nullish user = false ->
  bioText user =
  toString (js_or (prop user "bio") (JStr "This user has no bio.")).
Proof.
  intros Hn. unfold bioText, interp. by rewrite (get_nonnull _ _ Hn).
Qed.

Lemma locationText_run (user : JsVal) :
  nullish user = false ->
  locationText user =
  toString (js_or (prop user "location") (JStr "Earth")).
Proof.
  intros Hn. unfold locationText, interp. by rewrite (get_nonnull _ _ Hn).
Qed.

Lemma nameText_run (user : JsVal) :
  nullish user = false ->
  nameText user = toString (js_or (prop user "name") (prop user "login")).
Proof.
  intros Hn. unfold nameText, interp, js_or. rewrite (get_nonnull _ _ Hn).
  cbn [bind_r]. destruct (truthy (prop user "name")); [done|].
  by rewrite (get_nonnull _ _ Hn).
Qed.

Lemma js_or_falsy (a b : JsVal) : truthy a = false -> js_or a b = b.
Proof. unfold js_or. by intros ->. Qed.

Lemma js_or_truthy (a b : JsVal) : truthy a = true -> js_or a b = a.
Proof. unfold js_or. by intros ->. Qed.

Lemma truthy_text (s : string) : s <> EmptyString -> truthy (JStr s) = true.
Proof. intros Hs. cbn. by destruct (String.eqb_spec s EmptyString). Qed.

(** ** What a rendered card and a rendered page hold *)

Lemma repoCard_nonnull (repo : JsVal) (card : string) :
  repoCard repo = inr card -> nullish repo = false.
Proof.
  unfold repoCard, get. by destruct (nullish repo).
Qed.

(** Reads a successful [repoCard] as its date and its template. *)
Ltac open_card H Hn date Hdate :=
  pose proof (repoCard_nonnull _ _ H) as Hn;
  unfold repoCard in H; rewrite !(get_nonnull _ _ Hn) in H;
  cbn [bind_r ret_r] in H;
  destruct (localeDate _ (prop _ "updated_at")) as [?|date] eqn:Hdate;
  [discriminate H|]; cbn [bind_r] in H.

Lemma repoCard_holds (repo : JsVal) (card : string) :
  repoCard repo = inr card ->
  nullish repo = false
  /\ forall p,
       In p [descriptionText repo; languageIndicator repo] ->
       exists s, p = inr s /\ occurs_in s card.
Proof.
  intros Hcard. open_card Hcard Hn date Hdate.
  split; [done|]. intros p Hp.
  eapply template_In; [|exact Hcard].
  destruct Hp as [<-|[<-|[]]]; in_parts.
Qed.

Lemma profileHTML_nonnull (user repos : JsVal) (doc : string) :
  profileHTML user repos = inr doc -> nullish user = false.
Proof.
  unfold profileHTML, get. by destruct (nullish user).
Qed.

(** Reads a successful [profileHTML] as its date, its cards and its
    template. *)
Ltac open_page H Hn date Hdate cards Hcards :=
  pose proof (profileHTML_nonnull _ _ _ H) as Hn;
  unfold profileHTML in H; rewrite !(get_nonnull _ _ Hn) in H;
  cbn [bind_r ret_r] in H;
  destruct (localeDate _ (prop _ "created_at")) as [?|date] eqn:Hdate;
  [discriminate H|]; cbn [bind_r] in H;
  destruct (repoCards _) as [?|cards] eqn:Hcards;
  [discriminate H|]; cbn [bind_r] in H; cbv zeta in H.

Lemma profileHTML_holds (user repos : JsVal) (doc : string) :
  profileHTML user repos = inr doc ->
  nullish user = false
  /\ (forall p,
        In p [nameText user; bioText user; locationText user] ->
        exists s, p = inr s /\ occurs_in s doc)
  /\ exists cards,
       repoCards repos = inr cards /\ occurs_in (join_empty cards) doc.
Proof.
  intros Hdoc. open_page Hdoc Hn date Hdate cards Hcards.
  split; [done|]. split.
  - intros p Hp. eapply template_In; [|exact Hdoc].
    destruct Hp as [<-|[<-|[<-|[]]]]; in_parts.
  - exists cards. split; [done|].
    eapply (template_In _ (ret_r (join_empty cards))) in Hdoc
      as (s & [= <-] & Hocc); [done | in_parts].
Qed.

Lemma shows_bio (user repos : JsVal) (doc : string) :
  profileHTML user repos = inr doc ->
  exists s,
    toString (js_or (prop user "bio") (JStr "This user has no bio."))
    = inr s
    /\ shows (bioText user) s doc.
Proof.
  intros Hdoc. destruct (profileHTML_holds _ _ _ Hdoc) as (Hn & Hparts & _).
  destruct (Hparts (bioText user)) as (s & Hs & Hocc); [in_parts|].
  exists s. split; [by rewrite <- (bioText_run _ Hn) | done].
Qed.

Lemma shows_location (user repos : JsVal) (doc : string) :
  profileHTML user repos = inr doc ->
  exists s,
    toString (js_or (prop user "location") (JStr "Earth")) = inr s
    /\ shows (locationText user) s doc.
Proof.
  intros Hdoc. destruct (profileHTML_holds _ _ _ Hdoc) as (Hn & Hparts & _).
  destruct (Hparts (locationText user)) as (s & Hs & Hocc); [in_parts|].
  exists s. split; [by rewrite <- (locationText_run _ Hn) | done].
Qed.

Lemma shows_name (user repos : JsVal) (doc : string) :
  profileHTML user repos = inr doc ->
  exists s,
    toString (js_or (prop user "name") (prop user "login")) = inr s
    /\ shows (nameText user) s doc.
Proof.
  intros Hdoc. destruct (profileHTML_holds _ _ _ Hdoc) as (Hn & Hparts & _).
  destruct (Hparts (nameText user)) as (s & Hs & Hocc); [in_parts|].
  exists s. split; [by rewrite <- (nameText_run _ Hn) | done].
Qed.

Lemma shows_description (repo : JsVal) (card : string) :
  repoCard repo = inr card ->
  exists s,
    toString (js_or (prop repo "description")
                (JStr "No description provided."))
    = inr s
    /\ shows (descriptionText repo) s card.
Proof.
  intros Hcard. destruct (repoCard_holds _ _ Hcard) as (Hn & Hparts).
  destruct (Hparts (descriptionText repo)) as (s & Hs & Hocc); [in_parts|].
  exists s. split; [by rewrite <- (descriptionText_run _ Hn) | done].
Qed.

(** A fallback takes the place of a falsy value. *)
Lemma shows_fallback (v : JsVal) (fallback s : string)
    (slot : Res string) (page : string) :
  truthy v = false ->
  toString (js_or v (JStr fallback)) = inr s ->
  shows slot s page -> shows slot fallback page.
Proof.
  intros Hf Hs Hshows. rewrite (js_or_falsy _ _ Hf) in Hs.
  by injection Hs as <-.
Qed.

(** A text that is not empty stays. *)
Lemma shows_text (v other : JsVal) (text s : string)
    (slot : Res string) (page : string) :
  v = JStr text -> text <> EmptyString ->
  toString (js_or v other) = inr s ->
  shows slot s page -> shows slot text page.
Proof.
  intros -> Hne Hs Hshows. rewrite (js_or_truthy _ _ (truthy_text _ Hne)) in Hs.
  by injection Hs as <-.
Qed.

(** C7. In a rendered page and a rendered card, an absent (missing or
    null) bio, description or location is replaced by its fixed text, an
    absent name by the login; a field holding a text that is not empty is
    shown as it is. *)
Theorem absent_fields_get_fallbacks (user repos repo : JsVal)
    (doc card : string) :
  profileHTML user repos = inr doc ->
  repoCard repo = inr card ->
  (absent user "bio" -> shows (bioText user) "This user has no bio." doc)
  /\ (absent repo "description" ->
      shows (descriptionText repo) "No description provided." card)
  /\ (absent user "location" -> shows (locationText user) "Earth" doc)
  /\ (absent user "name" ->
      exists login,
        toString (prop user "login") = inr login
        /\ shows (nameText user) login doc)
  /\ (forall s,
        s <> EmptyString ->
        (prop user "bio" = JStr s -> shows (bioText user) s doc)
        /\ (prop repo "description" = JStr s ->
            shows (descriptionText repo) s card)
        /\ (prop user "location" = JStr s ->
            shows (locationText user) s doc)
        /\ (prop user "name" = JStr s -> shows (nameText user) s doc)).
Proof.
  intros Hdoc Hcard.
  destruct (shows_bio _ _ _ Hdoc) as (bio & Hbio & Hbio').
  destruct (shows_location _ _ _ Hdoc) as (loc & Hloc & Hloc').
  destruct (shows_name _ _ _ Hdoc) as (name & Hname & Hname').
  destruct (shows_description _ _ Hcard) as (desc & Hdesc & Hdesc').
  unfold absent.
  split; [intros Ha%nullish_falsy; by eapply shows_fallback|].
  split; [intros Ha%nullish_falsy; by eapply shows_fallback|].
  split; [intros Ha%nullish_falsy; by eapply shows_fallback|].
  split.
  { intros Ha%nullish_falsy. exists name.
    by rewrite (js_or_falsy _ _ Ha) in Hname. }
  intros s Hs.
  split; [intros Heq; by eapply shows_text|].
  split; [intros Heq; by eapply shows_text|].
  split; [intros Heq; by eapply shows_text|].
  intros Heq; by eapply shows_text.
Qed.

(** C9. The test is truthiness, not absence: a field that is present but
    falsy, the empty string in particular, is replaced like an absent one,
    so what is shown in its place is the fixed text (or the login), never
    the empty string it held. *)
Theorem falsy_fields_get_fallbacks (user repos repo : JsVal)
    (doc card : string) :
  profileHTML user repos = inr doc ->
  repoCard repo = inr card ->
  truthy (JStr EmptyString) = false
  /\ (truthy (prop user "bio") = false ->
      shows (bioText user) "This user has no bio." doc)
  /\ (truthy (prop repo "description") = false ->
      shows (descriptionText repo) "No description provided." card)
  /\ (truthy (prop user "location") = false ->
      shows (locationText user) "Earth" doc)
  /\ (truthy (prop user "name") = false ->
      exists login,
        toString (prop user "login") = inr login
        /\ shows (nameText user) login doc)
  /\ (prop user "bio" = JStr EmptyString ->
      bioText user <> inr EmptyString)
  /\ (prop repo "description" = JStr EmptyString ->
      descriptionText repo <> inr EmptyString)
  /\ (prop user "location" = JStr EmptyString ->
      locationText user <> inr EmptyString).
Proof.
  intros Hdoc Hcard.
  destruct (shows_bio _ _ _ Hdoc) as (bio & Hbio & Hbio').
  destruct (shows_location _ _ _ Hdoc) as (loc & Hloc & Hloc').
  destruct (shows_name _ _ _ Hdoc) as (name & Hname & Hname').
  destruct (shows_description _ _ Hcard) as (desc & Hdesc & Hdesc').
  assert (Hempty : forall slot page,
            shows slot "This user has no bio." page
            \/ shows slot "No description provided." page
            \/ shows slot "Earth" page ->
            slot <> inr EmptyString).
  { intros slot page [[-> _]|[[-> _]|[-> _]]]; done. }
  split; [done|].
  split; [intros Hf; by eapply shows_fallback|].
  split; [intros Hf; by eapply shows_fallback|].
  split; [intros Hf; by eapply shows_fallback|].
  split.
  { intros Hf. exists name. by rewrite (js_or_falsy _ _ Hf) in Hname. }
  split.
  { intros Heq. apply (Hempty _ doc). left.
    eapply shows_fallback; [|done..]. by rewrite Heq. }
  split.
  { intros Heq. apply (Hempty _ card). right. left.
    eapply shows_fallback; [|done..]. by rewrite Heq. }
  intros Heq. apply (Hempty _ doc). right. right.
  eapply shows_fallback; [|done..]. by rewrite Heq.
Qed.

(** ** The list of cards *)

Lemma mapM_r_Forall2 {A B} (f : A -> Res B) (l : list A) (ys : list B) :
  mapM_r f l = inr ys <-> Forall2 (fun x y => f x = inr y) l ys.
Proof.
  revert ys. induction l as [|x l IH]; intros ys; cbn.
  - split; [intros [= <-]; constructor | by inversion 1].
  - destruct (f x) as [e|y] eqn:Hy; cbn.
    + split; [done|]. inversion 1 as [|? y ? ys' Hy' _]; subst.
      rewrite Hy in Hy'. discriminate Hy'.
    + destruct (mapM_r f l) as [e|ys'] eqn:Hys; cbn.
      * split; [done|]. inversion 1 as [|? y' ? ys'' _ Hall]; subst.
        apply IH in Hall. discriminate Hall.
      * split.
        -- intros [= <-]. constructor; [done | by apply IH].
        -- inversion 1 as [|? y' ? ys'' Hy' Hall]; subst.
           apply IH in Hall. rewrite Hy in Hy'.
           injection Hy' as ->. by injection Hall as ->.
Qed.

Lemma presentable_spec (fields : list string) (v : JsVal) :
  presentable fields v = true <->
  nullish v = false
  /\ Forall (fun k => convertible (prop v k) = true) fields.
Proof.
  unfold presentable.
  rewrite andb_true_iff, negb_true_iff, forallb_forall, Forall_forall.
  split; intros [Hn Hall]; (split; [done|]); intros k Hk; apply Hall;
    by apply list_elem_of_In.
Qed.

Lemma js_or_convertible (v other : JsVal) (s : string) :
  toString (js_or v other) = inr s -> convertible v = true.
Proof.
  unfold js_or. destruct (truthy v) eqn:Hv; intros Hs;
    apply convertible_inr; [by exists s | by apply toString_falsy].
Qed.

Lemma js_or_converts (v : JsVal) (fallback : string) :
  convertible v = true ->
  exists s, toString (js_or v (JStr fallback)) = inr s.
Proof.
  intros Hv%convertible_inr. unfold js_or.
  destruct (truthy v); [done | by eexists].
Qed.

Lemma languageIndicator_convertible (repo : JsVal) (s : string) :
  nullish repo = false ->
  languageIndicator repo = inr s ->
  convertible (prop repo "language") = true.
Proof.
  intros Hn. unfold languageIndicator. rewrite !(get_nonnull _ _ Hn).
  cbn [bind_r]. destruct (truthy (prop repo "language")) eqn:Ht.
  - intros Hs. apply convertible_inr.
    eapply (template_In _ (interp (inr (prop repo "language")))) in Hs
      as (text & Htext & _); [by exists text | in_parts].
  - intros _. by apply convertible_inr, toString_falsy.
Qed.

Lemma languageIndicator_converts (repo : JsVal) :
  nullish repo = false ->
  convertible (prop repo "language") = true ->
  exists s, languageIndicator repo = inr s.
Proof.
  intros Hn [text Htext]%convertible_inr. unfold languageIndicator, interp.
  rewrite !(get_nonnull _ _ Hn). cbn [bind_r].
  destruct (truthy (prop repo "language")); [|by eexists].
  cbn [template lit bind_r ret_r]. rewrite Htext. cbn. by eexists.
Qed.

(** Finds the conversion of an interpolated property in a template that
    evaluated. *)
Ltac converted H :=
  match goal with
  | |- convertible (prop ?v ?k) = true =>
      let s := fresh in
      let Hs := fresh in
      apply convertible_inr;
      eapply (template_In _ (interp (inr (prop v k)))) in H
        as (s & Hs & _); [by exists s | solve [in_parts]]
  end.

(** A card comes out exactly for the repositories that are presentable. *)
Lemma repoCard_renders (repo : JsVal) :
  (exists card, repoCard repo = inr card) <->
  presentable repoFields repo = true.
Proof.
  rewrite presentable_spec. split.
  - intros [card Hcard].
    destruct (repoCard_holds _ _ Hcard) as [_ Hparts].
    open_card Hcard Hn date Hdate. split; [done|].
    unfold repoFields. repeat constructor; try converted Hcard.
    + rewrite localeDate_run in Hdate. by destruct (convertible _).
    + destruct (Hparts (descriptionText repo)) as (s & Hs & _); [in_parts|].
      rewrite (descriptionText_run _ Hn) in Hs.
      by eapply js_or_convertible.
    + destruct (Hparts (languageIndicator repo)) as (s & Hs & _);
        [in_parts|].
      by eapply languageIndicator_convertible.
  - intros [Hn Hall]. unfold repoFields in Hall.
    repeat match goal with
           | H : Forall _ (_ :: _) |- _ => apply Forall_cons in H as [? H]
           end.
    destruct (js_or_converts (prop repo "description")
                "No description provided.") as [desc Hdesc]; [done|].
    destruct (languageIndicator_converts repo) as [lang Hlang]; [done..|].
    repeat match goal with
           | H : convertible _ = true |- _ =>
               apply convertible_inr in H as [? H]
           end.
    unfold repoCard. rewrite !(get_nonnull _ _ Hn). cbn [bind_r].
    rewrite localeDate_run.
    replace (convertible (prop repo "updated_at")) with true
      by (symmetry; apply convertible_inr; eauto).
    cbn [bind_r]. rewrite (descriptionText_run _ Hn), Hdesc, Hlang.
    unfold interp. cbn [template lit bind_r ret_r].
    repeat match goal with
           | H : toString _ = inr _ |- _ => rewrite H; clear H
           end.
    cbn. by eexists.
Qed.

Lemma repoCards_array (items : list JsVal) (cards : list string) :
  repoCards (JArr items) = inr cards <->
  Forall2 (fun repo card => repoCard repo = inr card) items cards.
Proof. apply mapM_r_Forall2. Qed.

(** The cards of an array come out exactly when each of them does. *)
Lemma repoCards_renders (items : list JsVal) :
  (exists cards, repoCards (JArr items) = inr cards) <->
  forallb (presentable repoFields) items = true.
Proof.
  rewrite forallb_forall. split.
  - intros [cards Hcards%repoCards_array] repo Hin.
    apply repoCard_renders.
    induction Hcards as [|repo' card items cards Hcard _ IH]; [done|].
    destruct Hin as [->|Hin]; [by exists card | by apply IH].
  - induction items as [|repo items IH]; intros Hall; [by exists []|].
    destruct (proj2 (repoCard_renders repo)) as [card Hcard];
      [apply Hall; by left|].
    destruct IH as [cards Hcards]; [intros r Hr; apply Hall; by right|].
    exists (card :: cards). apply repoCards_array.
    constructor; [done | by apply repoCards_array].
Qed.

Lemma join_empty_cons (x : string) (xs : list string) :
  join_empty (x :: xs) = x +:+ join_empty xs.
Proof.
  unfold join_empty. destruct xs; cbn; [by rewrite append_empty_r | done].
Qed.

Lemma join_empty_app (xs ys : list string) :
  join_empty (xs ++ ys) = join_empty xs +:+ join_empty ys.
Proof.
  induction xs as [|x xs IH]; [done|].
  rewrite <- app_comm_cons, !join_empty_cons, IH. by rewrite append_assoc.
Qed.

(** Joining with the empty separator is putting end to end. *)
Lemma join_empty_foldr (xs : list string) :
  join_empty xs = foldr String.append EmptyString xs.
Proof.
  induction xs as [|x xs IH]; [done|]. by rewrite join_empty_cons, IH.
Qed.



(** ** The repository request *)

Lemma fetchStage_success (username : string) (w w' : World)
    (userData reposData : JsVal) :
  fetchStage username w = (inr (userData, reposData), w') ->
  issued w w' [userUrl username; reposUrl username]
  /\ exists r1 r2,
       transport (requests w) (userUrl username) = Some r1
       /\ ok r1 = true /\ body r1 = Some userData
       /\ transport (requests w ++ [userUrl username]) (reposUrl username)
          = Some r2
       /\ body r2 = Some reposData.
Proof.
  rewrite fetchStage_run. cbn zeta. unfold issued.
  destruct (transport (requests w) (userUrl username)) as [r1|]; [|done].
  destruct (ok r1) eqn:Hok; [|done].
  destruct (body r1) as [u|] eqn:Hb1; [|done].
  cbn [requests issue].
  destruct (transport _ (reposUrl username)) as [r2|] eqn:H2; [|done].
  destruct (body r2) as [rs|] eqn:Hb2; [|done].
  intros [= <- <- <-]. split; [cbn; by rewrite <- app_assoc|].
  by exists r1, r2.
Qed.

(** C5, as the code has it. The repository request asks for
    [sort=updated] and [per_page=6]. The client itself neither cuts nor
    sorts: the list it renders is the array of the response as received,
    one card per element in the same order. Its length is at most six
    whenever the service keeps to the requested page size. *)
Theorem repos_are_limited_by_the_service (username : string) (w : World) :
  reposUrl username = userUrl username +:+ "/repos?sort=updated&per_page=6"
  /\ (forall userData reposData w',
        fetchStage username w = (inr (userData, reposData), w') ->
        issued w w' [userUrl username; reposUrl username]
        /\ exists r,
             transport (requests w ++ [userUrl username]) (reposUrl username)
             = Some r
             /\ body r = Some reposData
             /\ forall sent,
                  body r = Some (JArr sent) ->
                  (List.length sent <= 6)%nat ->
                  exists items,
                    reposData = JArr items /\ (List.length items <= 6)%nat)
  /\ (forall items cards,
        repoCards (JArr items) = inr cards ->
        List.length cards = List.length items
        /\ Forall2 (fun repo card => repoCard repo = inr card) items cards).
Proof.
  split; [unfold reposUrl, userUrl; by rewrite append_assoc|].
  split.
  - intros userData reposData w' Hf.
    destruct (fetchStage_success _ _ _ _ _ Hf)
      as (Hiss & r1 & r2 & _ & _ & _ & H2 & Hb2).
    split; [done|]. exists r2. split; [done|]. split; [done|].
    intros sent Hsent Hlen. exists sent. split; [congruence | done].
  - intros items cards Hcards. apply repoCards_array in Hcards.
    split; [by rewrite (Forall2_length _ _ _ Hcards) | done].
Qed.

(** ** Rendering *)

(** C6. What [renderProfile] does is a function of its two arguments
    alone (the date formats of the host being fixed): from any two states
    it ends the same way and leaves the same content in the container; it
    touches nothing but that content (no request, no console output, and
    nothing at all when it throws); and rendering the same data again
    changes nothing. *)
Theorem rendering_is_pure (user repos : JsVal) (w1 w2 : World) :
  (renderProfile user repos w1).1 = (renderProfile user repos w2).1
  /\ ((renderProfile user repos w1).1 = inr tt ->
      innerHTML (renderProfile user repos w1).2
      = innerHTML (renderProfile user repos w2).2
      /\ profileHTML user repos
         = inr (innerHTML (renderProfile user repos w1).2))
  /\ requests (renderProfile user repos w1).2 = requests w1
  /\ console (renderProfile user repos w1).2 = console w1
  /\ defaultPrevented (renderProfile user repos w1).2 = defaultPrevented w1
  /\ ((renderProfile user repos w1).1 <> inr tt ->
      (renderProfile user repos w1).2 = w1)
  /\ renderProfile user repos (renderProfile user repos w1).2
     = renderProfile user repos w1.
Proof.
  rewrite !renderProfile_run.
  destruct (profileHTML user repos) as [e|html]; cbn; done.
Qed.

(** ** Occurrences across a concatenation *)

Lemma append_eq_append (a b c d : string) :
  a +:+ b = c +:+ d ->
  exists z, (a = c +:+ z /\ d = z +:+ b) \/ (c = a +:+ z /\ b = z +:+ d).
Proof.
  revert c. induction a as [|x a IH]; intros c H.
  - exists c. right. by rewrite append_empty_l in *.
  - destruct c as [|y c].
    + exists (String x a). left. by rewrite append_empty_l in *.
    + rewrite !append_cons in H. injection H as -> H.
      destruct (IH _ H) as [z [[-> ->]|[-> ->]]]; exists z; [left|right];
        by rewrite append_cons.
Qed.

Lemma has_char_append (a : ascii) (s t : string) :
  has_char a (s +:+ t) = has_char a s || has_char a t.
Proof.
  induction s as [|b s IH]; [done|].
  rewrite append_cons. cbn. by rewrite IH, orb_assoc.
Qed.

Lemma has_char_head (a : ascii) (s : string) :
  has_char a (String a s) = true.
Proof. cbn. by rewrite Ascii.eqb_refl. Qed.

(** A character foreign to [m] cuts every occurrence of [m]. *)
Lemma occurs_in_cut (m x y : string) (a : ascii) :
  has_char a m = false ->
  occurs_in m (x +:+ String a y) -> occurs_in m x \/ occurs_in m y.
Proof.
  intros Ha (l & r & H).
  apply append_eq_append in H as [z [[-> Hz]|[-> Hz]]].
  - apply append_eq_append in Hz as [z' [[-> Hz']|[-> _]]].
    + destruct z' as [|b z'].
      * left. exists l, EmptyString. by rewrite !append_empty_r.
      * rewrite append_cons in Hz'. injection Hz' as <- _.
        by rewrite has_char_append, has_char_head, orb_true_r in Ha.
    + left. by exists l, z'.
  - destruct z as [|b z].
    + rewrite append_empty_l in Hz. destruct m as [|b m].
      * left. exists x, EmptyString. by rewrite append_empty_r.
      * rewrite append_cons in Hz. injection Hz as <- _.
        by rewrite has_char_head in Ha.
    + rewrite append_cons in Hz. injection Hz as _ ->. right. by exists z, r.
Qed.

Lemma starts_with_append (m r : string) : starts_with m (m +:+ r) = true.
Proof.
  induction m as [|a m IH]; [done|].
  rewrite append_cons. cbn. by rewrite Ascii.eqb_refl.
Qed.

Lemma includes_head (m r : string) : includes (m +:+ r) m = true.
Proof.
  destruct (m +:+ r) eqn:H; cbn; rewrite <- H, starts_with_append; done.
Qed.

Lemma includes_complete (m t : string) :
  occurs_in m t -> includes t m = true.
Proof.
  intros (l & r & ->). induction l as [|a l IH].
  - rewrite append_empty_l. apply includes_head.
  - rewrite append_cons. cbn. rewrite IH. by destruct (starts_with _ _).
Qed.

Lemma last_char_split (a : ascii) (t : string) :
  t <> EmptyString ->
  exists t', t = t' +:+ String (last_char a t) EmptyString.
Proof.
  revert a. induction t as [|b t IH]; intros a Ht; [done|].
  destruct t as [|c t].
  - by exists EmptyString.
  - destruct (IH b ltac:(done)) as [t' Ht'].
    exists (String b t'). rewrite append_cons. cbn [last_char] in *.
    by rewrite <- Ht'.
Qed.

(** No occurrence of [m] reaches across a fence. *)
Lemma fences_cut (m t x y : string) :
  fences m t = true ->
  occurs_in m (x +:+ t +:+ y) -> occurs_in m x \/ occurs_in m y.
Proof.
  destruct t as [|a t]; [done|]. unfold fences.
  intros [[Ha Hz]%andb_prop Hin]%andb_prop.
  apply negb_true_iff in Ha, Hz, Hin.
  rewrite append_cons. intros [Hx|Hty]%occurs_in_cut; [by left| |done].
  destruct t as [|b t]; [right; by rewrite append_empty_l in Hty|].
  destruct (last_char_split a (String b t) ltac:(done)) as [t' Ht'].
  rewrite Ht', append_assoc, append_cons, append_empty_l in Hty.
  apply occurs_in_cut in Hty as [Ht|Hy]; [|by right|done].
  exfalso. rewrite <- not_true_iff_false in Hin. apply Hin.
  apply includes_complete. rewrite Ht'.
  destruct Ht as (l & r & ->).
  exists (String a l), (r +:+ String (last_char a (String b t)) EmptyString).
  by rewrite append_cons, !append_assoc.
Qed.

Lemma fenced_append (m t x y : string) :
  fences m t = true ->
  ~ occurs_in m x -> ~ occurs_in m y -> ~ occurs_in m (x +:+ t +:+ y).
Proof. intros Hf Hx Hy [H|H]%(fences_cut _ _ _ _ Hf); tauto. Qed.

Lemma starts_with_sound (m t : string) :
  starts_with m t = true -> exists r, t = m +:+ r.
Proof.
  revert t. induction m as [|a m IH]; intros t H; [by exists t|].
  destruct t as [|b t]; [done|]. cbn in H.
  destruct (Ascii.eqb_spec a b) as [->|]; [|done].
  apply IH in H as [r ->]. by exists r.
Qed.

Lemma includes_sound (m t : string) :
  includes t m = true -> occurs_in m t.
Proof.
  induction t as [|a t IH]; cbn.
  - destruct (starts_with m EmptyString) eqn:Hs; [|done].
    apply starts_with_sound in Hs as [r Hr]. by exists EmptyString, r.
  - destruct (starts_with m (String a t)) eqn:Hs.
    + apply starts_with_sound in Hs as [r Hr]. by exists EmptyString, r.
    + intros [l [r ->]]%IH. by exists (String a l), r.
Qed.

Lemma not_includes (m t : string) :
  includes t m = false -> ~ occurs_in m t.
Proof. intros H Hocc%includes_complete. congruence. Qed.

(** ** The language indicator *)

Lemma languageIndicator_falsy (repo : JsVal) :
  nullish repo = false ->
  truthy (prop repo "language") = false ->
  languageIndicator repo = inr EmptyString.
Proof.
  intros Hn Hf. unfold languageIndicator.
  rewrite (get_nonnull _ _ Hn). cbn [bind_r]. by rewrite Hf.
Qed.

Lemma languageIndicator_text (repo : JsVal) (language : string) :
  nullish repo = false ->
  prop repo "language" = JStr language ->
  language <> EmptyString ->
  exists indicator,
    languageIndicator repo = inr indicator
    /\ occurs_in indicatorClass indicator
    /\ occurs_in language indicator.
Proof.
  intros Hn Hl Hne. unfold languageIndicator, interp.
  rewrite !(get_nonnull _ _ Hn), Hl. cbn [bind_r].
  rewrite (truthy_text _ Hne). cbn.
  eexists. split; [done|]. split.
  - apply occurs_in_append_l, includes_sound. by vm_compute.
  - apply occurs_in_append_r, occurs_in_append_l, occurs_in_refl.
Qed.

Ltac across_fences :=
  repeat (apply fenced_append;
          [by vm_compute
          |first [assumption | apply not_includes; by vm_compute]
          |]);
  first [assumption | apply not_includes; by vm_compute].

(** Without a language, the class of the indicator can only come into a
    card with the data of the repository. *)
Lemma card_without_language (repo : JsVal) (card : string) :
  repoCard repo = inr card ->
  truthy (prop repo "language") = false ->
  Forall (fun text => forall s, text = inr s -> ~ occurs_in indicatorClass s)
    (interpolated repo) ->
  ~ occurs_in indicatorClass card.
Proof.
  intros Hcard Hf Hclean.
  destruct (proj1 (presentable_spec _ _)
              (proj1 (repoCard_renders repo) (ex_intro _ card Hcard)))
    as [Hn Hall].
  unfold repoFields in Hall. unfold interpolated in Hclean.
  assert (Hdate : convertible (prop repo "updated_at") = true)
    by (by apply Forall_cons in Hall as [? _]).
  repeat match goal with
         | H : Forall _ (_ :: _) |- _ => apply Forall_cons in H as [? H]
         end.
  rewrite localeDate_run, Hdate in *. revert Hdate.
  repeat match goal with
         | H : convertible _ = true |- _ =>
             apply convertible_inr in H as [? H]
         end.
  intros Hdate.
  repeat match goal with
         | Hc : forall s, ?t = inr s -> _, Ht : ?t = inr ?x |- _ =>
             specialize (Hc x Ht)
         | Hc : forall s, inr ?x = inr s -> _ |- _ =>
             specialize (Hc x eq_refl)
         end.
  revert Hcard. unfold repoCard, descriptionText, languageIndicator, interp.
  rewrite !(get_nonnull _ _ Hn). cbn [bind_r].
  rewrite localeDate_run, Hdate.
  cbn [bind_r template lit ret_r]. rewrite Hf. unfold js_or.
  destruct (truthy (prop repo "description"));
    repeat match goal with
           | H : toString _ = inr _ |- _ => rewrite ?H; clear H
           end;
    cbn; intros [= <-];
    match goal with
    | |- ~ occurs_in ?m (?t +:+ ?y) =>
        change (~ occurs_in m (EmptyString +:+ t +:+ y))
    end;
    across_fences.
Qed.

(** C8. A card of a repository without a language has no language
    indicator: the conditional part of the template is the empty string,
    and the class of the indicator occurs nowhere in the card unless the
    data of the repository itself brings it in. A card of a repository
    with a language, [Go] say, holds the indicator and, in it, that
    language. *)
Theorem language_indicator_follows_language (repo : JsVal) (card : string) :
  repoCard repo = inr card ->
  (absent repo "language" ->
   languageIndicator repo = inr EmptyString
   /\ (Forall (fun text =>
                 forall s, text = inr s -> ~ occurs_in indicatorClass s)
         (interpolated repo) ->
       ~ occurs_in indicatorClass card))
  /\ (forall language,
        prop repo "language" = JStr language ->
        language <> EmptyString ->
        exists indicator,
          languageIndicator repo = inr indicator
          /\ occurs_in indicator card
          /\ occurs_in indicatorClass indicator
          /\ occurs_in language indicator
          /\ occurs_in language card).
Proof.
  intros Hcard. destruct (repoCard_holds _ _ Hcard) as [Hn Hparts]. split.
  - intros Ha%nullish_falsy.
    split; [by apply languageIndicator_falsy|].
    by apply card_without_language.
  - intros language Hl Hne.
    destruct (languageIndicator_text repo language Hn Hl Hne)
      as (s & Hs & Hclass & Hlang).
    destruct (Hparts (languageIndicator repo)) as (s' & Hs' & Hocc);
      [in_parts|].
    rewrite Hs in Hs'. injection Hs' as <-.
    exists s. repeat split; try done. by eapply occurs_in_trans.
Qed.

(** ** What the renderer throws *)

Lemma template_inl (parts : list (Res string)) (e : Exn) :
  template parts = inl e -> In (inl e) parts.
Proof.
  induction parts as [|p parts IH]; [done|]. cbn.
  destruct p as [e'|s]; cbn; [intros [= <-]; by left|].
  destruct (template parts) as [e'|r]; cbn; [|done].
  intros [= <-]. right. by apply IH.
Qed.

Lemma mapM_r_inl {A B} (f : A -> Res B) (l : list A) (e : Exn) :
  mapM_r f l = inl e -> exists x, In x l /\ f x = inl e.
Proof.
  induction l as [|x l IH]; [done|]. cbn.
  destruct (f x) as [e'|y] eqn:Hx; cbn.
  - intros [= <-]. exists x. split; [by left | done].
  - destruct (mapM_r f l) as [e'|ys]; cbn; [|done].
    intros [= <-]. destruct (IH eq_refl) as (x' & Hin & Hx').
    exists x'. split; [by right | done].
Qed.

Lemma interp_throws (e' : Res JsVal) (e : Exn) :
  interp e' = inl e -> e' = inl e \/ e = TypeError.
Proof.
  unfold interp. destruct e' as [e0|v]; cbn; [intros [= <-]; by left|].
  intros H%toString_throws. by right.
Qed.

Lemma get_throws (v : JsVal) (k : string) (e : Exn) :
  get v k = inl e -> e = TypeError.
Proof. unfold get. destruct (nullish v); [by intros [= <-] | done]. Qed.

Lemma localeDate_throws (format : JsVal -> string) (v : JsVal) (e : Exn) :
  localeDate format v = inl e -> e = TypeError.
Proof.
  rewrite localeDate_run. destruct (convertible v); [done | by intros [= <-]].
Qed.

(** Goes through the parts of a template one of which threw. *)
Ltac thrown H :=
  cbn [In] in H;
  repeat (destruct H as [H|H];
          [first [discriminate H
                 |apply interp_throws in H as [H|H];
                  [first [discriminate H | apply get_throws in H; exact H]
                  |exact H]
                 |idtac]
          |]);
  try contradiction.

Lemma languageIndicator_throws (repo : JsVal) (e : Exn) :
  languageIndicator repo = inl e -> e = TypeError.
Proof.
  unfold languageIndicator.
  destruct (get repo "language") as [e'|language] eqn:Hget; cbn [bind_r].
  - intros [= <-]. by eapply get_throws.
  - destruct (truthy language); [|done].
    intros H%template_inl. thrown H.
Qed.

Lemma repoCard_throws (repo : JsVal) (e : Exn) :
  repoCard repo = inl e -> e = TypeError.
Proof.
  unfold repoCard.
  destruct (get repo "updated_at") as [e'|updated_at] eqn:Hget; cbn [bind_r].
  { intros [= <-]. by eapply get_throws. }
  destruct (localeDate shortDate updated_at) as [e'|date] eqn:Hdate;
    cbn [bind_r].
  { intros [= <-]. by eapply localeDate_throws. }
  intros H%template_inl. thrown H.
  - unfold descriptionText in H.
    apply interp_throws in H as [H|H]; [|done].
    destruct (get repo "description") as [e'|d] eqn:Hd; [|done].
    injection H as <-. by eapply get_throws.
  - by eapply languageIndicator_throws.
Qed.

Lemma repoCards_throws (repos : JsVal) (e : Exn) :
  repoCards repos = inl e -> e = TypeError.
Proof.
  unfold repoCards, array_map, throw_r.
  destruct repos as [| | | | |items|]; try (by intros [= <-]).
  intros (repo & _ & H%repoCard_throws)%mapM_r_inl. done.
Qed.

Lemma fallback_throws (v : JsVal) (k fallback : string) (e : Exn) :
  interp (x <~ get v k ;; ret_r (js_or x (JStr fallback)))%res = inl e ->
  e = TypeError.
Proof.
  intros [H|H]%interp_throws; [|done].
  destruct (get v k) as [e'|x] eqn:Hx; [|done].
  injection H as <-. by eapply get_throws.
Qed.

(** Whatever the renderer throws is a [TypeError]. *)
Lemma profileHTML_throws (user repos : JsVal) (e : Exn) :
  profileHTML user repos = inl e -> e = TypeError.
Proof.
  unfold profileHTML.
  destruct (get user "created_at") as [e'|created_at] eqn:Hget; cbn [bind_r].
  { intros [= <-]. by eapply get_throws. }
  destruct (localeDate longDate created_at) as [e'|date] eqn:Hdate;
    cbn [bind_r].
  { intros [= <-]. by eapply localeDate_throws. }
  destruct (repoCards repos) as [e'|cards] eqn:Hcards; cbn [bind_r].
  { intros [= <-]. by eapply repoCards_throws. }
  cbv zeta. intros H%template_inl. thrown H.
  - unfold nameText in H. apply interp_throws in H as [H|H]; [|done].
    destruct (get user "name") as [e'|name] eqn:Hname; cbn [bind_r] in H.
    + injection H as <-. by eapply get_throws.
    + destruct (truthy name); [done | by eapply get_throws].
  - by eapply fallback_throws.
  - by eapply fallback_throws.
Qed.

(** ** What the catch block receives *)


(** * Further properties of the script *)

(** ** The footprint of a run *)

(** A run in full: what it adds to the log of requests and to the
    console, and what it leaves in the container. *)
Lemma getUserProfile_shape (username : string) (w : World) :
  exists urls logs html,
    getUserProfile username w =
    (inr tt,
     mkWorld (requests w ++ urls) (console w ++ logs) html
       (defaultPrevented w))
    /\ (urls = [userUrl username]
        \/ urls = [userUrl username; reposUrl username])
    /\ (logs = [] /\ (exists userData reposData,
                        profileHTML userData reposData = inr html)
        \/ exists e, logs = [LogError e] /\ html = errorPanel).
Proof.
  rewrite getUserProfile_stages, fetchStage_run. cbn zeta.
  unfold display, log, issue. cbn.
  destruct (transport (requests w) (userUrl username)) as [r1|];
    [|do 3 eexists; split; [done|]; split; [by left | right; by eexists]].
  destruct (ok r1);
    [|do 3 eexists; split; [done|]; split; [by left | right; by eexists]].
  destruct (body r1) as [userData|];
    [|do 3 eexists; split; [done|]; split; [by left | right; by eexists]].
  rewrite <- !app_assoc. cbn.
  destruct (transport _ (reposUrl username)) as [r2|];
    [|do 3 eexists; split; [done|]; split; [by right | right; by eexists]].
  destruct (body r2) as [reposData|];
    [|do 3 eexists; split; [done|]; split; [by right | right; by eexists]].
  destruct (profileHTML userData reposData) as [e|html] eqn:Hhtml.
  - do 3 eexists. split; [done|]. split; [by right | right; by eexists].
  - exists [userUrl username; reposUrl username], [], html.
    rewrite app_nil_r. split; [done|]. split; [by right|].
    left. split; [done|]. by exists userData, reposData.
Qed.

(** X1. A run issues the profile request first and at most one request
    more, never a third and never one again; it writes to the console
    only by logging one caught error, and it shows the error panel
    exactly in that case: a console left as it was means a complete page
    in the container. *)
Theorem a_run_requests_twice_and_logs_once (username : string) (w : World) :
  (issued w (getUserProfile username w).2 [userUrl username]
   \/ issued w (getUserProfile username w).2
        [userUrl username; reposUrl username])
  /\ defaultPrevented (getUserProfile username w).2 = defaultPrevented w
  /\ (console (getUserProfile username w).2 = console w
      /\ (exists userData reposData,
            profileHTML userData reposData
            = inr (innerHTML (getUserProfile username w).2))
      \/ exists e,
           console (getUserProfile username w).2 = console w ++ [LogError e]
           /\ innerHTML (getUserProfile username w).2 = errorPanel).
Proof.
  destruct (getUserProfile_shape username w)
    as (urls & logs & html & -> & Hurls & Hlogs).
  unfold issued. cbn. split; [|split; [done|]].
  - destruct Hurls as [->| ->]; [by left | by right].
  - destruct Hlogs as [[-> Hpage]|[e [-> ->]]].
    + left. by rewrite app_nil_r.
    + right. by exists e.
Qed.

(** X2. The listener never throws and always prevents the default action
    of the submit event, whatever the value of the field and whatever the
    lookup runs into. *)
Theorem submit_never_reloads_the_page (value : string) (w : World) :
  (onSubmit value w).1 = inr tt
  /\ defaultPrevented (onSubmit value w).2 = true.
Proof.
  rewrite onSubmit_run.
  destruct (String.eqb (trim value) EmptyString); [done|].
  destruct (getUserProfile_shape (trim value) (prevent w))
    as (urls & logs & html & -> & _). done.
Qed.

(** X3. Only the profile response has its status tested. Once the profile
    arrived, was [ok] and parsed, a repository response is used whatever
    its status: its body is rendered like any other. *)
Theorem repos_status_is_never_tested (username : string) (w : World)
    (r1 r2 : Response) (userData reposData : JsVal) :
  transport (requests w) (userUrl username) = Some r1 ->
  ok r1 = true ->
  body r1 = Some userData ->
  transport (requests w ++ [userUrl username]) (reposUrl username)
  = Some r2 ->
  body r2 = Some reposData ->
  getUserProfile username w =
  let w' := issue (reposUrl username) (issue (userUrl username) w) in
  match profileHTML userData reposData with
  | inr html => (inr tt, display html w')
  | inl e => (inr tt, display errorPanel (log (LogError e) w'))
  end.
Proof.
  intros H1 Hok Hb1 H2 Hb2.
  rewrite getUserProfile_stages, fetchStage_run. cbn zeta.
  rewrite H1, Hok, Hb1. cbn [requests issue]. rewrite H2, Hb2.
  by destruct (profileHTML userData reposData).
Qed.

(** X4. What a run shows does not depend on what the container or the
    console held before: from two states with the same history of
    requests it issues the same requests and leaves the same content, so
    the content is replaced, never added to. *)
Theorem a_run_replaces_the_content (username : string) (w1 w2 : World) :
  requests w1 = requests w2 ->
  innerHTML (getUserProfile username w1).2
  = innerHTML (getUserProfile username w2).2
  /\ requests (getUserProfile username w1).2
     = requests (getUserProfile username w2).2.
Proof.
  intros Hreq. rewrite !getUserProfile_stages, !fetchStage_run. cbn zeta.
  cbn [requests issue]. rewrite Hreq.
  destruct (transport (requests w2) (userUrl username)) as [r1|];
    [|cbn; by rewrite Hreq].
  destruct (ok r1); [|cbn; by rewrite Hreq].
  destruct (body r1) as [userData|]; [|cbn; by rewrite Hreq].
  destruct (transport _ (reposUrl username)) as [r2|];
    [|cbn; by rewrite Hreq].
  destruct (body r2) as [reposData|]; [|cbn; by rewrite Hreq].
  destruct (profileHTML userData reposData); cbn; by rewrite Hreq.
Qed.

(** X5. The two requests succeed together or not at all: their result is
    the pair of both parsed bodies exactly when both responses arrive,
    the profile response is [ok] and both bodies are JSON, and then both
    requests are on the log. *)
Theorem both_bodies_or_none (username : string) (w w' : World)
    (userData reposData : JsVal) :
  fetchStage username w = (inr (userData, reposData), w')
  <-> (exists r1 r2,
         transport (requests w) (userUrl username) = Some r1
         /\ ok r1 = true /\ body r1 = Some userData
         /\ transport (requests w ++ [userUrl username]) (reposUrl username)
            = Some r2
         /\ body r2 = Some reposData)
      /\ w' = issue (reposUrl username) (issue (userUrl username) w).
Proof.
  split.
  - intros Hf. split; [by apply fetchStage_success in Hf as [_ ?]|].
    revert Hf. rewrite fetchStage_run. cbn zeta.
    repeat match goal with
           | |- context [match ?x with _ => _ end] => destruct x
           end; by intros [= <-].
  - intros [(r1 & r2 & H1 & Hok & Hb1 & H2 & Hb2) ->].
    rewrite fetchStage_run. cbn zeta. rewrite H1, Hok, Hb1.
    cbn [requests issue]. by rewrite H2, Hb2.
Qed.

(** ** The page around the cards *)

Lemma profileHTML_null (user repos : JsVal) :
  nullish user = true -> profileHTML user repos = inl TypeError.
Proof. intros Hn. unfold profileHTML, get. by rewrite Hn. Qed.

Lemma template_split (parts : list (Res string)) (n : nat) :
  template parts =
  (a <~ template (firstn n parts) ;;
   b <~ template (skipn n parts) ;; ret_r (a +:+ b))%res.
Proof.
  rewrite <- (firstn_skipn n parts) at 1.
  generalize (firstn n parts) (skipn n parts).
  intros xs ys. induction xs as [|x xs IH]; cbn.
  - by destruct (template ys).
  - destruct x as [e|s]; [done|]. cbn. rewrite IH.
    destruct (template xs) as [e|a]; [done|]. cbn.
    destruct (template ys) as [e|b]; [done|]. cbn.
    by rewrite append_assoc.
Qed.

(** With a presentable profile the template of the page always
    evaluates: the cards go into one place of it, and the text before and
    after that place is the same for every list of repositories. *)
Lemma profileHTML_around_cards (user : JsVal) :
  presentable userFields user = true ->
  exists before after,
    forall repos cards,
      repoCards repos = inr cards ->
      profileHTML user repos
      = inr (before +:+ join_empty cards +:+ after).
Proof.
  intros [Hn Hall]%presentable_spec. unfold userFields in Hall.
  repeat match goal with
         | H : Forall _ (_ :: _) |- _ => apply Forall_cons in H as [? H]
         end.
  assert (exists s, toString (js_or (prop user "name") (prop user "login"))
                    = inr s) as [name Hname].
  { unfold js_or. destruct (truthy _); by apply convertible_inr. }
  destruct (js_or_converts (prop user "bio") "This user has no bio.")
    as [bio Hbio]; [done|].
  destruct (js_or_converts (prop user "location") "Earth")
    as [location Hlocation]; [done|].
  repeat match goal with
         | H : convertible _ = true |- _ =>
             apply convertible_inr in H as [? H]
         end.
  do 2 eexists. intros repos cards Hcards.
  unfold profileHTML. rewrite !(get_nonnull _ _ Hn). cbn [bind_r].
  rewrite localeDate_run.
  replace (convertible (prop user "created_at")) with true
    by (symmetry; apply convertible_inr; eauto).
  cbn [bind_r]. rewrite Hcards. cbn [bind_r]. cbv zeta.
  rewrite (template_split _ 23%nat). cbn [firstn skipn].
  rewrite (nameText_run _ Hn), (bioText_run _ Hn), (locationText_run _ Hn).
  rewrite Hname, Hbio, Hlocation.
  unfold interp. cbn [template lit bind_r ret_r].
  repeat match goal with
         | H : toString _ = inr _ |- _ => rewrite H; clear H
         end.
  cbn. reflexivity.
Qed.

Lemma profileHTML_presentable (user repos : JsVal) (doc : string) :
  profileHTML user repos = inr doc -> presentable userFields user = true.
Proof.
  intros Hdoc. apply presentable_spec.
  destruct (profileHTML_holds _ _ _ Hdoc) as (_ & Hparts & _).
  open_page Hdoc Hn date Hdate cards Hcards. split; [done|].
  assert (Hlogin : convertible (prop user "login") = true)
    by converted Hdoc.
  unfold userFields. repeat constructor; try converted Hdoc.
  - rewrite localeDate_run in Hdate. by destruct (convertible _).
  - destruct (Hparts (nameText user)) as (s & Hs & _); [in_parts|].
    rewrite (nameText_run _ Hn) in Hs. by eapply js_or_convertible.
  - destruct (Hparts (bioText user)) as (s & Hs & _); [in_parts|].
    rewrite (bioText_run _ Hn) in Hs. by eapply js_or_convertible.
  - destruct (Hparts (locationText user)) as (s & Hs & _); [in_parts|].
    rewrite (locationText_run _ Hn) in Hs. by eapply js_or_convertible.
Qed.

(** X6. The renderer gives a page exactly for data it can lay out: the
    profile is not null and every field that the page reads of it
    converts to a string, and the repositories are an array of elements
    of which the same holds. A missing field never makes it throw; a
    null where a property is read, something that is no array where it
    maps, and a field holding an object with a [toString] entry of its
    own do, and what is thrown is always a [TypeError]. *)
Theorem rendering_succeeds_on_presentable_data (user repos : JsVal) :
  ((exists doc, profileHTML user repos = inr doc) <->
   presentable userFields user = true
   /\ exists items,
        repos = JArr items
        /\ forallb (presentable repoFields) items = true)
  /\ (forall e, profileHTML user repos = inl e -> e = TypeError)
  /\ (nullish user = true -> profileHTML user repos = inl TypeError)
  /\ (forall fields m k,
        presentable fields (JObj m) = true ->
        presentable fields (JObj (delete k m)) = true).
Proof.
  split; [split|split; [|split]].
  - intros [doc Hdoc]. split; [by eapply profileHTML_presentable|].
    destruct (profileHTML_holds _ _ _ Hdoc) as (_ & _ & cards & Hcards & _).
    destruct repos as [| | | | |items|]; try done.
    exists items. split; [done|]. apply repoCards_renders. by exists cards.
  - intros (Huser & items & -> & Hitems).
    destruct (proj2 (repoCards_renders items) Hitems) as [cards Hcards].
    destruct (profileHTML_around_cards _ Huser) as (before & after & Hpage).
    eexists. by apply Hpage.
  - apply profileHTML_throws.
  - apply profileHTML_null.
  - intros fields m k [_ Hall]%presentable_spec. apply presentable_spec.
    split; [done|]. eapply Forall_impl; [exact Hall|].
    intros k' Hk'. cbn in *. destruct (decide (k = k')) as [->|Hne].
    + by rewrite lookup_delete_eq.
    + by rewrite lookup_delete_ne.
Qed.

(** X7. The repositories fill one place of the page and nothing else:
    for a presentable profile there is a text before and a text after
    the cards that every list of repositories shares, the cards stand
    between them one after the other with nothing in between, and with
    no repository at all the page is the one text followed by the
    other. *)
Theorem repositories_fill_one_place (user : JsVal) :
  presentable userFields user = true ->
  exists before after,
    (forall repos cards,
       repoCards repos = inr cards ->
       profileHTML user repos
       = inr (before +:+ foldr String.append EmptyString cards +:+ after))
    /\ profileHTML user (JArr []) = inr (before +:+ after).
Proof.
  intros Huser.
  destruct (profileHTML_around_cards _ Huser) as (before & after & Hpage).
  exists before, after. split.
  - intros repos cards Hcards. rewrite <- join_empty_foldr. by apply Hpage.
  - by rewrite (Hpage (JArr []) [] eq_refl).
Qed.

(** X8. Cards are made one repository at a time: the cards of two lists
    put end to end are the cards of the first followed by those of the
    second, in the list and in the HTML, and the longer list renders
    exactly when both parts do. *)
Theorem cards_of_lists_end_to_end (items1 items2 : list JsVal)
    (cards : list string) :
  repoCards (JArr (items1 ++ items2)) = inr cards
  <-> exists cards1 cards2,
        repoCards (JArr items1) = inr cards1
        /\ repoCards (JArr items2) = inr cards2
        /\ cards = cards1 ++ cards2
        /\ join_empty cards = join_empty cards1 +:+ join_empty cards2.
Proof.
  rewrite repoCards_array, Forall2_app_inv_l. split.
  - intros (cards1 & cards2 & H1 & H2 & ->). exists cards1, cards2.
    rewrite !repoCards_array. by rewrite join_empty_app.
  - intros (cards1 & cards2 & H1 & H2 & -> & _). exists cards1, cards2.
    by rewrite <- !repoCards_array.
Qed.

(** Finds an interpolated property, converted, in a template that
    evaluated. *)
Ltac shown_in H :=
  match goal with
  | |- exists s, toString (prop ?v ?k) = inr s /\ occurs_in s _ =>
      eapply (template_In _ (interp (inr (prop v k)))) in H;
      [exact H | solve [in_parts]]
  end.

(** X9. A card holds the values of its repository exactly as the
    conversion to a string gives them, with nothing escaped and no
    fallback: the address, the name, the visibility, both counts (so a
    missing value is shown as what the conversion makes of undefined),
    and the date as the host formats it. *)
Theorem card_values_are_verbatim (repo : JsVal) (card : string) :
  repoCard repo = inr card ->
  Forall (fun k =>
            exists s, toString (prop repo k) = inr s /\ occurs_in s card)
    ["html_url"; "name"; "visibility"; "stargazers_count"; "forks_count"]
  /\ localeDate shortDate (prop repo "updated_at")
     = inr (shortDate (prop repo "updated_at"))
  /\ occurs_in (shortDate (prop repo "updated_at")) card.
Proof.
  intros Hcard. open_card Hcard Hn date Hdate.
  split; [|split].
  - repeat constructor; shown_in Hcard.
  - rewrite localeDate_run in *. by destruct (convertible _).
  - rewrite localeDate_run in Hdate. destruct (convertible _); [|done].
    injection Hdate as <-.
    eapply (template_In _ (ret_r _)) in Hcard as (s & [= <-] & Hs);
      [exact Hs | in_parts].
Qed.

(** X10. The page holds the values of the profile that have no fallback
    exactly as the conversion to a string gives them: both addresses, the
    login, the three counts, and the date of creation as the host
    formats it. *)
Theorem page_values_are_verbatim (user repos : JsVal) (doc : string) :
  profileHTML user repos = inr doc ->
  Forall (fun k =>
            exists s, toString (prop user k) = inr s /\ occurs_in s doc)
    ["html_url"; "avatar_url"; "login"; "public_repos"; "followers";
     "following"]
  /\ localeDate longDate (prop user "created_at")
     = inr (longDate (prop user "created_at"))
  /\ occurs_in (longDate (prop user "created_at")) doc.
Proof.
  intros Hdoc. open_page Hdoc Hn date Hdate cards Hcards.
  split; [|split].
  - repeat constructor; shown_in Hdoc.
  - rewrite localeDate_run in *. by destruct (convertible _).
  - rewrite localeDate_run in Hdate. destruct (convertible _); [|done].
    injection Hdate as <-.
    eapply (template_In _ (ret_r _)) in Hdoc as (s & [= <-] & Hs);
      [exact Hs | in_parts].
Qed.

(** ** White space around the query *)

Arguments ws1 : simpl never.
Arguments ws2 : simpl never.
Arguments ws3 : simpl never.

Lemma rev_app_spec (s t : string) :
  String.rev_app s t = String.rev s +:+ t.
Proof.
  unfold String.rev. revert t. induction s as [|a s IH]; intros t; [done|].
  cbn. rewrite (IH (String a t)), (IH (String a EmptyString)).
  by rewrite append_assoc.
Qed.

Lemma rev_cons (a : ascii) (s : string) :
  String.rev (String a s) = String.rev s +:+ String a EmptyString.
Proof. unfold String.rev at 1. cbn. apply rev_app_spec. Qed.

Lemma rev_append (s t : string) :
  String.rev (s +:+ t) = String.rev t +:+ String.rev s.
Proof.
  induction s as [|a s IH].
  - by rewrite append_empty_l, append_empty_r.
  - by rewrite append_cons, !rev_cons, IH, append_assoc.
Qed.

Lemma blank_append (s t : string) :
  blank (s +:+ t) = blank s && blank t.
Proof.
  induction s as [|a s IH]; [done|].
  rewrite append_cons. cbn. by rewrite IH, andb_assoc.
Qed.

Lemma blank_rev (s : string) : blank (String.rev s) = blank s.
Proof.
  induction s as [|a s IH]; [done|].
  rewrite rev_cons, blank_append, IH. cbn.
  by rewrite andb_true_r, andb_comm.
Qed.

(** Leading white space of one byte goes whatever follows it. *)
Lemma strip_blank_prefix (w2 : ascii -> ascii -> bool)
    (w3 : ascii -> ascii -> ascii -> bool) (p s : string) :
  blank p = true -> strip ws1 w2 w3 (p +:+ s) = strip ws1 w2 w3 s.
Proof.
  induction p as [|a p IH]; [done|]. cbn.
  intros [Ha Hp]%andb_prop. rewrite append_cons. cbn. rewrite Ha. auto.
Qed.

Lemma ws1_small (a : ascii) : ws1 a = true -> (code a <= 32)%N.
Proof.
  unfold ws1. cbn. rewrite !orb_true_iff, !N.eqb_eq. lia.
Qed.

Lemma ws2_not_blank (a b : ascii) : ws1 b = true -> ws2 a b = false.
Proof.
  intros Hb%ws1_small. unfold ws2.
  destruct (N.eqb_spec (code b) 160); [lia | by rewrite andb_false_r].
Qed.

Lemma ws3_not_blank_2 (a b c : ascii) : ws1 b = true -> ws3 a b c = false.
Proof.
  intros Hb%ws1_small. unfold ws3.
  assert (Hne : forall k, (32 < k)%N -> (code b =? k)%N = false)
    by (intros k Hk; apply N.eqb_neq; lia).
  rewrite !Hne by lia. by rewrite !andb_false_r.
Qed.

Lemma ws3_not_blank_3 (a b c : ascii) : ws1 c = true -> ws3 a b c = false.
Proof.
  intros Hc%ws1_small. unfold ws3.
  assert (Hne : forall k, (32 < k)%N -> (code c =? k)%N = false)
    by (intros k Hk; apply N.eqb_neq; lia).
  assert (Hle : (128 <=? code c)%N = false) by (apply N.leb_gt; lia).
  rewrite !Hne, Hle by lia. by rewrite !andb_false_r.
Qed.

(** Trailing white space of one byte never completes a longer white-space
    character: it stays behind whatever [trimStart] leaves. *)
Lemma trimStart_blank_suffix (p : string) :
  blank p = true ->
  forall n s,
    (String.length s <= n)%nat ->
    trimStart (s +:+ p) =
    if String.eqb (trimStart s) EmptyString then EmptyString
    else trimStart s +:+ p.
Proof.
  intros Hp. unfold trimStart.
  assert (Hblank : strip ws1 ws2 ws3 p = EmptyString).
  { rewrite <- (append_empty_r p). by rewrite strip_blank_prefix. }
  induction n as [|n IH]; intros s Hlen.
  { destruct s; [|cbn in Hlen; lia]. by rewrite append_empty_l, Hblank. }
  destruct s as [|a r1]; [by rewrite append_empty_l, Hblank|].
  cbn in Hlen. rewrite append_cons. cbn [strip].
  destruct (ws1 a) eqn:Ha; [apply IH; lia|].
  destruct r1 as [|b r2].
  { rewrite append_empty_l. cbn.
    destruct p as [|b p]; [done|]. cbn in Hp.
    apply andb_prop in Hp as [Hb Hp]. rewrite (ws2_not_blank a b Hb).
    destruct p as [|c p]; [done|]. cbv beta iota.
    by rewrite (ws3_not_blank_2 a b c Hb). }
  cbn in Hlen. rewrite append_cons.
  destruct (ws2 a b) eqn:Hab; [apply IH; lia|].
  destruct r2 as [|c r3].
  { rewrite append_empty_l. cbn.
    destruct p as [|c p]; [done|]. cbn in Hp.
    apply andb_prop in Hp as [Hc Hp]. cbv beta iota.
    by rewrite (ws3_not_blank_3 a b c Hc). }
  cbn in Hlen. rewrite append_cons.
  destruct (ws3 a b c) eqn:Habc; [apply IH; lia|]. done.
Qed.

Lemma trimEnd_blank_suffix (s p : string) :
  blank p = true -> trimEnd (s +:+ p) = trimEnd s.
Proof.
  intros Hp. unfold trimEnd. rewrite rev_append, strip_blank_prefix; [done|].
  by rewrite blank_rev.
Qed.

Lemma trim_blank_padding (before s after : string) :
  blank before = true -> blank after = true ->
  trim (before +:+ s +:+ after) = trim s.
Proof.
  intros Hb Ha. unfold trim.
  replace (trimStart (before +:+ s +:+ after)) with (trimStart (s +:+ after))
    by (unfold trimStart; by rewrite (strip_blank_prefix _ _ before)).
  rewrite (trimStart_blank_suffix after Ha (String.length s) s (le_n _)).
  destruct (String.eqb_spec (trimStart s) EmptyString) as [->|_]; [done|].
  by apply trimEnd_blank_suffix.
Qed.

(** X11. Spaces, tabs and line breaks before and after the name in the
    field make no difference to a submission: the same requests, the same
    page, the same console as for the name alone. *)
Theorem padding_makes_no_difference (before name after : string)
    (w : World) :
  blank before = true -> blank after = true ->
  onSubmit (before +:+ name +:+ after) w = onSubmit name w.
Proof.
  intros Hb Ha. by rewrite !onSubmit_run, (trim_blank_padding _ _ _ Hb Ha).
Qed.

End Controller.

(** ** The earlier draft *)

(** The draft listener passes the raw value on: a blank query is looked
    up too, one request is issued for it, and the page is left alone. *)
Lemma draft_looks_blank_queries_up (transport : Transport) (w : World) :
  requests (Draft.onSubmit transport EmptyString w).2
  = requests w ++ ["https://api.github.com/users/"]
  /\ innerHTML (Draft.onSubmit transport EmptyString w).2 = innerHTML w.
Proof.
  unfold Draft.onSubmit, Draft.getUserProfile, bind, preventDefault,
    console_log, fetch, json. cbn.
  destruct (transport (requests w) _) as [r|]; [|done].
  cbn. destruct (body r); done.
Qed.

(** * Concrete runs *)

Example trim_keeps_inner_space : trim "  octo cat  " = "octo cat".
Proof. reflexivity. Qed.

Example trim_drops_no_break_space :
  trim (String (ascii_of_nat 194) (String (ascii_of_nat 160) "octocat"))
  = "octocat".
Proof. reflexivity. Qed.

Example toString_of_nested_array :
  toString (JArr [JNum "5"; JNull; JArr [JNum "-3"; JStr "a"]; JObj ∅])
  = inr "5,,-3,a,[object Object]".
Proof. reflexivity. Qed.

(** A number is printed as the conversion of numbers prints it, in
    exponent form from 1e21 on. *)
Example toString_of_a_large_number :
  toString (JNum "1e+21") = inr "1e+21".
Proof. reflexivity. Qed.

(** A JSON object that has a [toString] entry of its own cannot be
    converted, alone or inside an array, and a repository holding one in
    a field that the card shows has no card. *)
Example toString_of_an_object_with_its_own :
  let odd := JObj {[ "toString" := JStr "x" ]} in
  toString odd = inl TypeError
  /\ toString (JArr [JStr "a"; odd]) = inl TypeError
  /\ localeDate plainDate odd = inl TypeError
  /\ repoCard plainDate (JObj {[ "name" := odd ]}) = inl TypeError
  /\ presentable repoFields (JObj {[ "name" := odd ]}) = false.
Proof. vm_compute. repeat split. Qed.

(** The scenario of the specification: the profile and six repositories
    arrive; both requests are issued, nothing is logged, and the page
    holds the login and the six cards. *)
Example octocat_with_six_repos :
  let sixRepos := JArr (replicate 6 spoonKnife) in
  let w := (getUserProfile plainDate plainDate
              (serve (found octocat) (found sixRepos)) "octocat" w0).2 in
  (bool_decide (requests w = [userUrl "octocat"; reposUrl "octocat"])
   && (List.length (console w) =? 0)%nat
   && includes (innerHTML w) "octocat"
   && match repoCards plainDate sixRepos with
      | inr cards =>
          (List.length cards =? 6)%nat
          && includes (innerHTML w) (join_empty cards)
      | inl _ => false
      end)
  = true.
Proof. vm_compute. reflexivity. Qed.

(** A repository response that is JSON but no array passes the two
    requests and fails in the rendering: the panel is shown, and what is
    logged is a [TypeError]. *)
Example repos_that_are_no_array :
  getUserProfile plainDate plainDate
    (serve (found octocat) (found (JObj ∅))) "octocat" w0
  = (inr tt,
     mkWorld [userUrl "octocat"; reposUrl "octocat"] [LogError TypeError]
       errorPanel false).
Proof. reflexivity. Qed.

Lemma not_found_stops_the_query_witness :
  serve notFound notFound (requests w0) (userUrl "octocat") = Some notFound
  /\ ok notFound = false
  /\ getUserProfile plainDate plainDate (serve notFound notFound) "octocat" w0
     = (inr tt,
        display errorPanel
          (log (LogError UserNotFound) (issue (userUrl "octocat") w0))).
Proof.
  split; [reflexivity|]. split; [reflexivity|].
  apply (proj1 (not_found_stops_the_query plainDate plainDate
                  (serve notFound notFound) "octocat" w0) notFound);
    reflexivity.
Defined.

Lemma blank_query_is_ignored_witness :
  trim "   " = EmptyString
  /\ requests (onSubmit plainDate plainDate (serve notFound notFound)
                 "   " w0).2
     = requests w0.
Proof.
  split; [reflexivity|].
  apply (blank_query_is_ignored plainDate plainDate
           (serve notFound notFound) "   " w0).
  reflexivity.
Defined.



Lemma every_failure_shows_the_panel_witness :
  fetchStage (serve notJson notJson) "octocat" w0
  = (inl JsonRejected, issue (userUrl "octocat") w0)
  /\ exists w',
       getUserProfile plainDate plainDate (serve notJson notJson)
         "octocat" w0
       = (inr tt, w')
       /\ w' = display errorPanel
                 (log (LogError JsonRejected) (issue (userUrl "octocat") w0)).
Proof.
  split; [reflexivity|].
  destruct (every_failure_shows_the_panel plainDate plainDate
              (serve notJson notJson) "octocat" w0)
    as (w' & Hrun & Hfail & _).
  exists w'. split; [exact Hrun|].
  apply Hfail. reflexivity.
Defined.

(** C5, as stated, fails: the service below answers the repository
    request with seven repositories, and all seven make up the list. *)
Lemma repo_list_longer_than_six :
  ~ (forall (transport : Transport) username w userData items w',
       fetchStage transport username w = (inr (userData, JArr items), w') ->
       (List.length items <= 6)%nat).
Proof.
  intros H.
  specialize (H (serve (found octocat) (found (JArr sevenRepos)))
                "octocat" w0 octocat sevenRepos _ eq_refl).
  vm_compute in H. lia.
Qed.

Lemma repos_are_limited_by_the_service_witness :
  fetchStage (serve (found octocat) (found (JArr [helloWorld])))
    "octocat" w0
  = (inr (octocat, JArr [helloWorld]),
     issue (reposUrl "octocat") (issue (userUrl "octocat") w0))
  /\ issued w0 (issue (reposUrl "octocat") (issue (userUrl "octocat") w0))
       [userUrl "octocat"; reposUrl "octocat"].
Proof.
  split; [reflexivity|].
  apply (proj1 (proj2 (repos_are_limited_by_the_service plainDate
                         (serve (found octocat) (found (JArr [helloWorld])))
                         "octocat" w0)) octocat (JArr [helloWorld])).
  reflexivity.
Defined.

Lemma absent_fields_get_fallbacks_witness :
  exists doc card,
    profileHTML plainDate plainDate octocat (JArr [helloWorld]) = inr doc
    /\ repoCard plainDate spoonKnife = inr card
    /\ absent octocat "bio"
    /\ shows (bioText octocat) "This user has no bio." doc
    /\ absent spoonKnife "description"
    /\ shows (descriptionText spoonKnife) "No description provided." card.
Proof.
  destruct (profileHTML plainDate plainDate octocat (JArr [helloWorld]))
    as [e|doc] eqn:Hdoc; [vm_compute in Hdoc; discriminate Hdoc|].
  destruct (repoCard plainDate spoonKnife)
    as [e|card] eqn:Hcard; [vm_compute in Hcard; discriminate Hcard|].
  destruct (absent_fields_get_fallbacks plainDate plainDate octocat
              (JArr [helloWorld]) spoonKnife doc card Hdoc Hcard)
    as (Hbio & Hdesc & _).
  exists doc, card. split; [reflexivity|]. split; [reflexivity|].
  split; [reflexivity|]. split; [apply Hbio; reflexivity|].
  split; [reflexivity|]. apply Hdesc; reflexivity.
Defined.

Lemma falsy_fields_get_fallbacks_witness :
  exists doc card,
    profileHTML plainDate plainDate octocat (JArr [helloWorld]) = inr doc
    /\ repoCard plainDate helloWorld = inr card
    /\ prop octocat "name" = JStr EmptyString
    /\ shows (nameText octocat) "octocat" doc
    /\ prop helloWorld "description" = JStr EmptyString
    /\ shows (descriptionText helloWorld) "No description provided." card.
Proof.
  destruct (profileHTML plainDate plainDate octocat (JArr [helloWorld]))
    as [e|doc] eqn:Hdoc; [vm_compute in Hdoc; discriminate Hdoc|].
  destruct (repoCard plainDate helloWorld)
    as [e|card] eqn:Hcard; [vm_compute in Hcard; discriminate Hcard|].
  destruct (falsy_fields_get_fallbacks plainDate plainDate octocat
              (JArr [helloWorld]) helloWorld doc card Hdoc Hcard)
    as (_ & _ & Hdesc & _ & Hname & _).
  destruct (Hname eq_refl) as (login & Hlogin & Hshown).
  vm_compute in Hlogin. injection Hlogin as <-.
  exists doc, card. split; [reflexivity|]. split; [reflexivity|].
  split; [reflexivity|]. split; [exact Hshown|].
  split; [reflexivity|]. apply Hdesc; reflexivity.
Defined.

Lemma language_indicator_follows_language_witness :
  (exists card,
     repoCard plainDate helloWorld = inr card
     /\ prop helloWorld "language" = JStr "Go"
     /\ exists indicator,
          languageIndicator helloWorld = inr indicator
          /\ occurs_in indicator card
          /\ occurs_in indicatorClass indicator
          /\ occurs_in "Go" indicator
          /\ occurs_in "Go" card)
  /\ (exists card,
        repoCard plainDate spoonKnife = inr card
        /\ absent spoonKnife "language"
        /\ languageIndicator spoonKnife = inr EmptyString
        /\ ~ occurs_in indicatorClass card).
Proof.
  split.
  - destruct (repoCard plainDate helloWorld)
      as [e|card] eqn:Hcard; [vm_compute in Hcard; discriminate Hcard|].
    exists card. split; [reflexivity|]. split; [reflexivity|].
    apply (proj2 (language_indicator_follows_language plainDate helloWorld
                    card Hcard) "Go"); [reflexivity | discriminate].
  - destruct (repoCard plainDate spoonKnife)
      as [e|card] eqn:Hcard; [vm_compute in Hcard; discriminate Hcard|].
    destruct (proj1 (language_indicator_follows_language plainDate
                       spoonKnife card Hcard) eq_refl) as [Hnone Hclean].
    exists card. split; [reflexivity|]. split; [reflexivity|].
    split; [exact Hnone|]. apply Hclean.
    repeat constructor; intros s Hs; vm_compute in Hs; injection Hs as <-;
      apply not_includes; vm_compute; reflexivity.
Defined.


(** * Further properties of the draft *)

(** X12. The draft listener always prevents the default action and looks
    the raw value of the field up, untrimmed and even when blank: exactly
    one request, for the address ending in that value; the value is the
    first thing logged, and the container is never written. *)
Theorem draft_requests_the_raw_value (transport : Transport)
    (value : string) (w : World) :
  requests (Draft.onSubmit transport value w).2
  = requests w ++ ["https://api.github.com/users/" +:+ value]
  /\ innerHTML (Draft.onSubmit transport value w).2 = innerHTML w
  /\ defaultPrevented (Draft.onSubmit transport value w).2 = true
  /\ exists rest,
       console (Draft.onSubmit transport value w).2
       = console w ++ LogValue (JStr value) :: rest.
Proof.
  unfold Draft.onSubmit, Draft.getUserProfile, bind, preventDefault,
    console_log, fetch, json. cbn.
  destruct (transport (requests w) _) as [r|]; cbn.
  - destruct (body r); cbn; rewrite <- ?app_assoc; repeat split; by eexists.
  - repeat split; by eexists.
Qed.

(** X13. The draft lookup has no [try] and no test of the status: a
    request without response and a body that is not JSON end it with the
    exception, uncaught; every response with a JSON body, whatever its
    status, ends it normally with that body logged after the name. *)
Theorem draft_lets_failures_escape (transport : Transport)
    (username : string) (w : World) :
  let url := "https://api.github.com/users/" +:+ username in
  (transport (requests w) url = None ->
   (Draft.getUserProfile transport username w).1 = inl FetchRejected)
  /\ (forall r,
        transport (requests w) url = Some r -> body r = None ->
        (Draft.getUserProfile transport username w).1 = inl JsonRejected)
  /\ (forall r data,
        transport (requests w) url = Some r -> body r = Some data ->
        (Draft.getUserProfile transport username w).1 = inr tt
        /\ console (Draft.getUserProfile transport username w).2
           = console w ++ [LogValue (JStr username); LogValue data]).
Proof.
  unfold Draft.getUserProfile, bind, console_log, fetch, json. cbn.
  split; [by intros ->|]. split.
  - intros r -> Hb. cbn. by rewrite Hb.
  - intros r data -> Hb. cbn. rewrite Hb. cbn. by rewrite <- app_assoc.
Qed.

(** * Concrete runs of the further properties *)

Lemma repos_status_is_never_tested_witness :
  let service :=
    serve (found octocat) (mkResponse 500 (Some (JArr [helloWorld]))) in
  service (requests w0) (userUrl "octocat") = Some (found octocat)
  /\ ok (found octocat) = true
  /\ ok (mkResponse 500 (Some (JArr [helloWorld]))) = false
  /\ getUserProfile plainDate plainDate service "octocat" w0
     = match profileHTML plainDate plainDate octocat (JArr [helloWorld]) with
       | inr html =>
           (inr tt,
            display html
              (issue (reposUrl "octocat") (issue (userUrl "octocat") w0)))
       | inl e =>
           (inr tt,
            display errorPanel
              (log (LogError e)
                 (issue (reposUrl "octocat") (issue (userUrl "octocat") w0))))
       end.
Proof.
  intros service. split; [reflexivity|]. split; [reflexivity|].
  split; [reflexivity|].
  apply (repos_status_is_never_tested plainDate plainDate service "octocat"
           w0 (found octocat) (mkResponse 500 (Some (JArr [helloWorld]))));
    reflexivity.
Defined.

Lemma a_run_replaces_the_content_witness :
  let w1 := display "an older page" (log (LogError TypeError) w0) in
  requests w1 = requests w0
  /\ innerHTML (getUserProfile plainDate plainDate
                  (serve (found octocat) (found (JArr [helloWorld])))
                  "octocat" w1).2
     = innerHTML (getUserProfile plainDate plainDate
                    (serve (found octocat) (found (JArr [helloWorld])))
                    "octocat" w0).2.
Proof.
  intros w1. split; [reflexivity|].
  apply (a_run_replaces_the_content plainDate plainDate
           (serve (found octocat) (found (JArr [helloWorld])))
           "octocat" w1 w0).
  reflexivity.
Defined.

Lemma rendering_succeeds_on_presentable_data_witness :
  profileHTML plainDate plainDate octocat JNull = inl TypeError
  /\ TypeError = TypeError.
Proof.
  split; [reflexivity|].
  apply (proj1 (proj2 (rendering_succeeds_on_presentable_data plainDate
                         plainDate octocat JNull)) TypeError).
  reflexivity.
Defined.

Lemma repositories_fill_one_place_witness :
  presentable userFields octocat = true
  /\ exists before after,
       (forall repos cards,
          repoCards plainDate repos = inr cards ->
          profileHTML plainDate plainDate octocat repos
          = inr (before +:+ foldr String.append EmptyString cards
                 +:+ after))
       /\ profileHTML plainDate plainDate octocat (JArr [])
          = inr (before +:+ after).
Proof.
  split; [reflexivity|].
  apply (repositories_fill_one_place plainDate plainDate octocat).
  reflexivity.
Defined.

Lemma card_values_are_verbatim_witness :
  exists card,
    repoCard plainDate spoonKnife = inr card
    /\ Forall (fun k =>
                exists s,
                  toString (prop spoonKnife k) = inr s /\ occurs_in s card)
         ["html_url"; "name"; "visibility"; "stargazers_count";
          "forks_count"]
    /\ localeDate plainDate (prop spoonKnife "updated_at")
       = inr (plainDate (prop spoonKnife "updated_at"))
    /\ occurs_in (plainDate (prop spoonKnife "updated_at")) card.
Proof.
  destruct (repoCard plainDate spoonKnife)
    as [e|card] eqn:Hcard; [vm_compute in Hcard; discriminate Hcard|].
  exists card. split; [reflexivity|].
  apply (card_values_are_verbatim plainDate spoonKnife card Hcard).
Defined.

Lemma page_values_are_verbatim_witness :
  exists doc,
    profileHTML plainDate plainDate octocat (JArr [helloWorld]) = inr doc
    /\ Forall (fun k =>
                exists s,
                  toString (prop octocat k) = inr s /\ occurs_in s doc)
         ["html_url"; "avatar_url"; "login"; "public_repos"; "followers";
          "following"]
    /\ localeDate plainDate (prop octocat "created_at")
       = inr (plainDate (prop octocat "created_at"))
    /\ occurs_in (plainDate (prop octocat "created_at")) doc.
Proof.
  destruct (profileHTML plainDate plainDate octocat (JArr [helloWorld]))
    as [e|doc] eqn:Hdoc; [vm_compute in Hdoc; discriminate Hdoc|].
  exists doc. split; [reflexivity|].
  apply (page_values_are_verbatim plainDate plainDate octocat
           (JArr [helloWorld]) doc Hdoc).
Defined.

Lemma padding_makes_no_difference_witness :
  let tab := String (ascii_of_nat 9) EmptyString in
  let newline := String (ascii_of_nat 10) EmptyString in
  blank ("  " +:+ tab) = true
  /\ blank (" " +:+ newline) = true
  /\ onSubmit plainDate plainDate
       (serve (found octocat) (found (JArr [helloWorld])))
       (("  " +:+ tab) +:+ "octocat" +:+ (" " +:+ newline)) w0
     = onSubmit plainDate plainDate
         (serve (found octocat) (found (JArr [helloWorld]))) "octocat" w0.
Proof.
  intros tab newline. split; [reflexivity|]. split; [reflexivity|].
  apply (padding_makes_no_difference plainDate plainDate
           (serve (found octocat) (found (JArr [helloWorld])))
           ("  " +:+ tab) "octocat" (" " +:+ newline) w0);
    reflexivity.
Defined.

Lemma draft_lets_failures_escape_witness :
  serve notFound notFound (requests w0)
    ("https://api.github.com/users/" +:+ "octocat")
  = Some notFound
  /\ ok notFound = false
  /\ body notFound = Some (JObj ∅)
  /\ (Draft.getUserProfile (serve notFound notFound) "octocat" w0).1
     = inr tt
  /\ console (Draft.getUserProfile (serve notFound notFound) "octocat" w0).2
     = console w0 ++ [LogValue (JStr "octocat"); LogValue (JObj ∅)].
Proof.
  split; [reflexivity|]. split; [reflexivity|]. split; [reflexivity|].
  apply (proj2 (proj2 (draft_lets_failures_escape (serve notFound notFound)
                         "octocat" w0)) notFound (JObj ∅));
    reflexivity.
Defined.
